(** * GutSense backend: the request handlers and the rule listing, embedded

    The development follows the repository's sources:
    - [api/health.js], [api/analyze-food-simple.js] and the Gemini-backed
      [analyze-food] handler are Vercel serverless functions
      [handler(req, res)].  Each one is embedded as a computation in a small
      state-and-exception monad whose state holds the response headers set so
      far, the number of clock readings taken and the trace of observable
      effects (console output, calls to the generative model).
    - the README's "Rule-Based Analysis Engine" listing is embedded as the
      IF/RETURN chain it is written as.
    - the rule engine [classify] that the specification describes has no
      source file; it is modelled from the specification in its own module. *)

From Stdlib Require Import String Ascii List ZArith QArith Bool Lia.
Import ListNotations.
Local Open Scope string_scope.
Local Open Scope Z_scope.

(** ** JavaScript values that travel as JSON *)

Module Json.

(** A JSON value.  Numbers are rationals: every number the handlers write
    themselves is an integer, a number parsed from upstream text need not
    be. *)
#[warnings="-register-all"]
Inductive json : Type :=
| JNull
| JBool (b : bool)
| JNum (q : Q)
| JStr (s : string)
| JArr (items : list json)
| JObj (fields : list (string * json)).

Definition num (z : Z) : json := JNum (inject_Z z).
Definition strs (l : list string) : json := JArr (map JStr l).

(** Own-property lookup in an object's field list (insertion order). *)
Fixpoint assoc (k : string) (fs : list (string * json)) : option json :=
  match fs with
  | [] => None
  | (k', v) :: rest => if String.eqb k k' then Some v else assoc k rest
  end.

(** [o[k] = v] on a field list: an existing key keeps its place, a new key
    goes last. *)
Fixpoint assoc_set (k : string) (v : json) (fs : list (string * json))
  : list (string * json) :=
  match fs with
  | [] => [(k, v)]
  | (k', v') :: rest =>
      if String.eqb k k' then (k, v) :: rest else (k', v') :: assoc_set k v rest
  end.

(** Reading property [k] of a value that came from JSON; [None] is
    [undefined].  Only objects carry the keys the handlers read. *)
Definition get (k : string) (v : json) : option json :=
  match v with
  | JObj fs => assoc k fs
  | _ => None
  end.

(** JavaScript truthiness of a JSON value. *)
Definition truthy (v : json) : bool :=
  match v with
  | JNull => false
  | JBool b => b
  | JNum q => negb (Qeq_bool q 0)
  | JStr s => negb (String.eqb s "")
  | JArr _ => true
  | JObj _ => true
  end.

(** Truthiness of a possibly [undefined] value. *)
Definition truthy_opt (v : option json) : bool :=
  match v with
  | None => false
  | Some x => truthy x
  end.

Definition is_string (v : option json) : bool :=
  match v with Some (JStr _) => true | _ => false end.

Definition is_array (v : option json) : bool :=
  match v with Some (JArr _) => true | _ => false end.

Definition is_number (v : option json) : bool :=
  match v with Some (JNum _) => true | _ => false end.

(** A number that is a whole number within [lo, hi]. *)
Definition integer_between (lo hi : Z) (v : option json) : bool :=
  match v with
  | Some (JNum q) =>
      (Pos.eqb (Qden (Qred q)) 1)
      && (lo <=? Qnum (Qred q)) && (Qnum (Qred q) <=? hi)
  | _ => false
  end.

End Json.
Import Json.

(** ** The JavaScript runtime and the handler monad *)

Module Js.

(** The two values that have no properties. *)
Inductive nullish : Type := Undefined | Null.

(** The places where the handlers can raise a [TypeError]; the engine words
    the error after the value it met. *)
Inductive type_error : Type :=
| Destructure (value : nullish)   (* const { image } = req.body *)
| NotAFunction (callee : string)  (* image.startsWith on a value that is no string *)
| SetPropertyOfNull (key : string)
| CreatePropertyOnPrimitive (key : string) (target : json)
| ReadPropertyOf (value : nullish) (key : string).  (* error.message *)

(** What a [catch] clause receives: a [TypeError] of the engine, a thrown
    value whose [message] reads as [message] (empty when it has none), or a
    thrown [null] or [undefined]. *)
Inductive js_error : Type :=
| TypeError (why : type_error)
| Thrown (message : string)
| ThrownNullish (value : nullish).

(** Built-ins of the runtime that the handlers call and the repository does
    not define: [JSON.parse] ([None] stands for its [SyntaxError]),
    [String.prototype.trim], [Date.prototype.toISOString] on a time in
    milliseconds, and the engine's wording of a [TypeError]. *)
Class Runtime : Type := {
  JSON_parse : string -> option json;
  trim : string -> string;
  toISOString : Z -> string;
  type_error_message : type_error -> string
}.


(** The image part handed to the model. *)
Record InlineData : Type := {
  data : option string;
  mimeType : option string
}.

(** Observable effects of a handler run, oldest first. *)
Inductive event : Type :=
| ConsoleLog (label : string) (args : list (option json))
| ConsoleError (label : string) (args : list (option json))
| GetGenerativeModel (model : string)
| GenerateContent (prompt_timestamp : string) (image : InlineData).

(** Everything outside the request that a run depends on.  The call to
    the model either rejects with a value that has a message, or yields a
    text, or rejects with [null] or [undefined], or never settles (line 127
    awaits it without a timeout). *)
Inductive upstream_reply : Type :=
| UpstreamThrows (message : string)   (* generateContent / response.text() rejects *)
| UpstreamText (text : string)        (* response.text() *)
| UpstreamRejectsWith (value : nullish)
| UpstreamNeverSettles.

Record Env : Type := {
  GEMINI_API_KEY : option string;     (* process.env.GEMINI_API_KEY *)
  clock : nat -> Z;                   (* the n-th reading of the clock, in ms *)
  upstream : upstream_reply           (* the outcome of the call to the model
                                         that this run makes, if it makes one:
                                         for this key, prompt and image *)
}.

Record Request : Type := {
  method : string;
  body : option json                  (* req.body; None is undefined *)
}.

Record Response : Type := {
  status : Z;
  payload : option json               (* None: res.end() with no body *)
}.

Record World : Type := {
  ticks : nat;
  headers : list (string * string);
  trace : list event
}.

Definition world0 : World := {| ticks := 0; headers := []; trace := [] |}.

(** How a computation ends: with a value, with an exception, or not at all
    (it awaits a promise that never settles). *)
Inductive completion (A : Type) : Type :=
| Normal (a : A)
| Throw (e : js_error)
| Pending.
Arguments Normal {A} a.
Arguments Throw {A} e.
Arguments Pending {A}.

Definition M (A : Type) : Type := World -> completion A * World.

Definition ret {A} (a : A) : M A := fun w => (Normal a, w).

Definition bind {A B} (m : M A) (k : A -> M B) : M B :=
  fun w =>
    match m w with
    | (Normal a, w') => k a w'
    | (Throw e, w') => (Throw e, w')
    | (Pending, w') => (Pending, w')
    end.

Definition throw {A} (e : js_error) : M A := fun w => (Throw e, w).

(** [await] on a promise that never settles. *)
Definition never {A} : M A := fun w => (Pending, w).

(** [try { m } catch (e) { h e }]: effects made before the throw stay. *)
Definition try_catch {A} (m : M A) (h : js_error -> M A) : M A :=
  fun w =>
    match m w with
    | (Normal a, w') => (Normal a, w')
    | (Throw e, w') => h e w'
    | (Pending, w') => (Pending, w')
    end.

Declare Scope js_scope.
Delimit Scope js_scope with js.
Notation "x <- c ;; k" := (bind c (fun x => k))
  (at level 61, c at next level, right associativity) : js_scope.
Notation "c ;; k" := (bind c (fun _ => k))
  (at level 61, right associativity) : js_scope.
Local Open Scope js_scope.

Definition emit (e : event) : M unit :=
  fun w => (Normal tt,
            {| ticks := ticks w; headers := headers w; trace := trace w ++ [e] |}).

Definition console_log (label : string) (args : list (option json)) : M unit :=
  emit (ConsoleLog label args).

Definition console_error (label : string) (args : list (option json)) : M unit :=
  emit (ConsoleError label args).

(** [res.setHeader(name, value)]. *)
Definition setHeader (name value : string) : M unit :=
  fun w => (Normal tt,
            {| ticks := ticks w;
               headers := headers w ++ [(name, value)];
               trace := trace w |}).

(** One reading of the system clock ([new Date()] or [Date.now()]). *)
Definition read_clock (env : Env) : M Z :=
  fun w => (Normal (clock env (ticks w)),
            {| ticks := S (ticks w); headers := headers w; trace := trace w |}).

(** [new Date().toISOString()]. *)
Definition now_iso `{Runtime} (env : Env) : M string :=
  t <- read_clock env ;; ret (toISOString t).

(** [res.status(code).end()] and [res.status(code).json(v)]. *)
Definition res_end (code : Z) : M Response :=
  ret {| status := code; payload := None |}.

Definition res_json (code : Z) (v : json) : M Response :=
  ret {| status := code; payload := Some v |}.

(** A value of [process.env] used as a condition. *)
Definition env_truthy (v : option string) : bool :=
  match v with
  | None => false
  | Some s => negb (String.eqb s "")
  end.

(** [const { ... } = req.body]: throws on [undefined] and on [null],
    otherwise gives the property reader of the body. *)
Definition destructure (b : option json) : M (string -> option json) :=
  match b with
  | None => throw (TypeError (Destructure Undefined))
  | Some JNull => throw (TypeError (Destructure Null))
  | Some v => ret (fun k => get k v)
  end.

(** [error.message] in a [catch] clause: reading it off [null] or
    [undefined] throws in turn. *)
Definition read_message `{Runtime} (error : js_error) : M string :=
  match error with
  | TypeError why => ret (type_error_message why)
  | Thrown message => ret message
  | ThrownNullish value => throw (TypeError (ReadPropertyOf value "message"))
  end.

(** [target[key] = v] in strict mode (an ES module).  A property put on an
    array is kept by the array and left out when it is serialised. *)
Definition assign (target : json) (key : string) (v : json) : M json :=
  match target with
  | JObj fs => ret (JObj (assoc_set key v fs))
  | JArr items => ret (JArr items)
  | JNull => throw (TypeError (SetPropertyOfNull key))
  | other => throw (TypeError (CreatePropertyOnPrimitive key other))
  end.

Definition run {A} (m : M A) : completion A * World := m world0.

End Js.
Import Js.

(** ** String helpers used by the Gemini handler *)

Module Text.

Definition newline : ascii := "010"%char.

(** [s.split(sep)] for a one-character separator. *)
Fixpoint split_on (sep : ascii) (s : string) : list string :=
  match s with
  | EmptyString => [EmptyString]
  | String c rest =>
      if Ascii.eqb c sep then EmptyString :: split_on sep rest
      else match split_on sep rest with
           | h :: t => String c h :: t
           | [] => [String c EmptyString]
           end
  end.

Fixpoint drop (n : nat) (s : string) : string :=
  match n, s with
  | O, _ => s
  | S k, EmptyString => EmptyString
  | S k, String _ rest => drop k rest
  end.

Definition starts_with_newline (s : string) : bool :=
  match s with
  | String c _ => Ascii.eqb c newline
  | EmptyString => false
  end.

(** [s.replace(/<pat>\n?/g, '')] for a literal, non-empty [pat]: every
    match, leftmost first and never overlapping, is removed together with
    one newline that follows it.  [skip] counts the characters of the current
    match still to be dropped. *)
Fixpoint remove_with_newline (pat : string) (skip : nat) (s : string) : string :=
  match s with
  | EmptyString => EmptyString
  | String c rest =>
      match skip with
      | S k => remove_with_newline pat k rest
      | O =>
          if String.prefix pat s then
            let n := (String.length pat
                      + if starts_with_newline (drop (String.length pat) s)
                        then 1 else 0)%nat in
            remove_with_newline pat (Nat.pred n) rest
          else String c (remove_with_newline pat 0 rest)
      end
  end.

(** [text.replace(/```json\n?/g, '').replace(/```\n?/g, '').trim()]. *)
Definition clean_response `{Runtime} (text : string) : string :=
  trim (remove_with_newline "```" 0 (remove_with_newline "```json" 0 text)).

End Text.
Import Text.

(** ** The serverless functions

    Each source file exports one function named [handler]; a module per file
    keeps the name. *)

(** *** api/health.js *)

Module Health.
Local Open Scope js_scope.
Section WithRuntime.
Context `{rt : Runtime}.

Definition handler (env : Env) (req : Request) : M Response :=
  setHeader "Access-Control-Allow-Origin" "*" ;;
  setHeader "Access-Control-Allow-Methods" "GET, POST, PUT, DELETE, OPTIONS" ;;
  setHeader "Access-Control-Allow-Headers"
            "Content-Type, Authorization, X-Requested-With" ;;
  setHeader "Access-Control-Max-Age" "86400" ;;
  if String.eqb (method req) "OPTIONS" then res_end 200
  else
    timestamp <- now_iso env ;;
    res_json 200 (JObj [
      ("status", JStr "healthy");
      ("message", JStr "🦠 GutSense Backend API is running!");
      ("version", JStr "1.0.0");
      ("timestamp", JStr timestamp);
      ("cors", JStr "enabled");
      ("gemini", JStr (if env_truthy (GEMINI_API_KEY env)
                       then "configured" else "not_configured"))
    ]).

End WithRuntime.
End Health.

(** *** api/analyze-food-simple.js *)

Module AnalyzeFoodSimple.
Local Open Scope js_scope.
Section WithRuntime.
Context `{rt : Runtime}.

Definition mockAnalysis (timestamp : string) : json :=
  JObj [
    ("name", JStr "Indian Food Detected");
    ("category", JStr "indian");
    ("confidence", num 85);
    ("spiceLevel", num 3);
    ("gutImpact", JStr "medium");
    ("fermented", JBool false);
    ("reaction", JStr "caution");
    ("explanation", JStr "This appears to be an Indian dish. The spices and preparation method suggest moderate gut impact. Consider your spice tolerance.");
    ("alternatives", strs ["Plain rice"; "Steamed vegetables"; "Yogurt"]);
    ("tips", strs ["Eat slowly"; "Drink water"; "Monitor your response"]);
    ("nutritionalInfo", JObj [
       ("calories", JStr "200-400 per serving");
       ("fiber", JStr "medium");
       ("probiotics", JBool false);
       ("inflammatory", JBool false)
     ]);
    ("recognitionMethod", JStr "mock_analysis");
    ("timestamp", JStr timestamp);
    ("note", JStr "This is a mock response while Gemini integration is being configured")
  ].

Definition handler (env : Env) (req : Request) : M Response :=
  setHeader "Access-Control-Allow-Origin" "*" ;;
  setHeader "Access-Control-Allow-Methods" "GET, POST, OPTIONS" ;;
  setHeader "Access-Control-Allow-Headers" "Content-Type" ;;
  if String.eqb (method req) "OPTIONS" then res_end 200
  else if negb (String.eqb (method req) "POST") then
    res_json 405 (JObj [("error", JStr "Method not allowed")])
  else
    try_catch
      (field <- destructure (body req) ;;
       let image := field "image" in
       if negb (truthy_opt image) then
         res_json 400 (JObj [("error", JStr "Image required")])
       else
         timestamp <- now_iso env ;;
         res_json 200 (mockAnalysis timestamp))
      (fun error =>
         message <- read_message error ;;
         timestamp <- now_iso env ;;
         res_json 500 (JObj [
           ("error", JStr "Analysis failed");
           ("message", JStr message);
           ("timestamp", JStr timestamp)
         ])).

End WithRuntime.
End AnalyzeFoodSimple.

(** *** The test endpoint

    The second function of [api/analyze-food-simple.js] (lines 60-83): it
    answers every request that is no preflight with a fixed object that
    echoes the method. *)

Module TestEndpoint.
Local Open Scope js_scope.
Section WithRuntime.
Context `{rt : Runtime}.

Definition handler (env : Env) (req : Request) : M Response :=
  setHeader "Access-Control-Allow-Origin" "*" ;;
  setHeader "Access-Control-Allow-Methods" "GET, POST, OPTIONS" ;;
  setHeader "Access-Control-Allow-Headers" "Content-Type" ;;
  if String.eqb (method req) "OPTIONS" then res_end 200
  else
    timestamp <- now_iso env ;;
    res_json 200 (JObj [
      ("status", JStr "success");
      ("message", JStr "Backend is working!");
      ("timestamp", JStr timestamp);
      ("method", JStr (method req));
      ("cors", JStr "enabled")
    ]).

End WithRuntime.
End TestEndpoint.

(** *** The Gemini-backed analyze-food function

    The module-level [new GoogleGenerativeAI(process.env.GEMINI_API_KEY)]
    only stores the key; it has no effect that a run could observe. *)

Module AnalyzeFood.
Local Open Scope js_scope.
Section WithRuntime.
Context `{rt : Runtime}.

(** Lines 55-76: the image part built from [req.body.image]. *)
Definition prepare_image (image : option json) : M InlineData :=
  match image with
  | Some (JStr s) =>
      if String.prefix "data:image/" s then
        let base64Data := nth_error (split_on "," s) 1 in
        let mimeType :=
          nth_error (split_on ":" (hd EmptyString (split_on ";" s))) 1 in
        ret {| data := base64Data; mimeType := mimeType |}
      else
        ret {| data := Some s; mimeType := Some "image/jpeg" |}
  | _ => throw (TypeError (NotAFunction "image.startsWith"))
  end.

(** [model.generateContent([prompt, imageData])] followed by
    [response.text()].  The prompt is a fixed template; the only part of it
    that varies is the timestamp spliced into it. *)
Definition generateContent (env : Env) (prompt_timestamp : string)
    (imageData : InlineData) : M string :=
  emit (GenerateContent prompt_timestamp imageData) ;;
  match upstream env with
  | UpstreamThrows m => throw (Thrown m)
  | UpstreamText text => ret text
  | UpstreamRejectsWith value => throw (ThrownNullish value)
  | UpstreamNeverSettles => never
  end.

(** Lines 145-165: the analysis used when the reply does not parse. *)
Definition fallbackAnalysis (timestamp : string) : json :=
  JObj [
    ("name", JStr "Food Analysis");
    ("category", JStr "unknown");
    ("confidence", num 75);
    ("spiceLevel", num 2);
    ("gutImpact", JStr "medium");
    ("fermented", JBool false);
    ("reaction", JStr "caution");
    ("explanation", JStr "AI analysis completed but response format needs adjustment. The food appears to be edible but please consult with a nutritionist for personalized advice.");
    ("alternatives", strs ["Steamed vegetables"; "Plain rice"; "Yogurt"]);
    ("tips", strs ["Eat in moderation"; "Monitor your body's response"; "Stay hydrated"]);
    ("nutritionalInfo", JObj [
       ("calories", JStr "varies");
       ("fiber", JStr "medium");
       ("probiotics", JBool false);
       ("inflammatory", JBool false)
     ]);
    ("recognitionMethod", JStr "gemini_ai_fallback");
    ("timestamp", JStr timestamp);
    ("note", JStr "Response parsing issue - using fallback analysis")
  ].

(** Lines 134-166: parse the reply, or fall back. *)
Definition parse_or_fallback (env : Env) (text : string) : M json :=
  try_catch
    (match JSON_parse (clean_response text) with
     | Some v => ret v
     | None => throw (Thrown "SyntaxError")
     end)
    (fun parseError =>
       console_error "❌ Failed to parse Gemini response as JSON:" [] ;;
       console_log "Raw response:" [Some (JStr text)] ;;
       timestamp <- now_iso env ;;
       ret (fallbackAnalysis timestamp)).

(** Lines 168-176: the three metadata assignments and the reply. *)
Definition add_metadata_and_reply (env : Env) (analysisData : json) : M Response :=
  a1 <- assign analysisData "apiVersion" (JStr "1.0") ;;
  a2 <- assign a1 "model" (JStr "gemini-2.0-flash-exp") ;;
  now <- read_clock env ;;
  a3 <- assign a2 "processingTime" (num now) ;;
  console_log "🎯 Analysis complete:" [get "name" a3] ;;
  res_json 200 a3.

Definition handler (env : Env) (req : Request) : M Response :=
  setHeader "Access-Control-Allow-Origin" "*" ;;
  setHeader "Access-Control-Allow-Methods" "POST, OPTIONS" ;;
  setHeader "Access-Control-Allow-Headers" "Content-Type" ;;
  if String.eqb (method req) "OPTIONS" then res_end 200
  else if negb (String.eqb (method req) "POST") then
    res_json 405 (JObj [
      ("error", JStr "Method not allowed");
      ("message", JStr "Only POST requests are supported")
    ])
  else
    try_catch
      (if negb (env_truthy (GEMINI_API_KEY env)) then
         console_error "❌ GEMINI_API_KEY not found in environment variables" [] ;;
         res_json 500 (JObj [
           ("error", JStr "Configuration error");
           ("message", JStr "API key not configured")
         ])
       else
         field <- destructure (body req) ;;
         let image := field "image" in
         let food_name := field "food_name" in
         if negb (truthy_opt image) then
           res_json 400 (JObj [
             ("error", JStr "Bad request");
             ("message", JStr "Image data is required")
           ])
         else
           console_log "🔍 Processing food analysis request..." [] ;;
           emit (GetGenerativeModel "gemini-2.0-flash-exp") ;;
           imageData <- prepare_image image ;;
           prompt_timestamp <- now_iso env ;;
           console_log "🧠 Sending request to Gemini AI..." [] ;;
           text <- generateContent env prompt_timestamp imageData ;;
           console_log "✅ Received response from Gemini" [] ;;
           console_log "📝 Raw response:"
                       [Some (JStr (String.substring 0 200 text ++ "..."))] ;;
           analysisData <- parse_or_fallback env text ;;
           add_metadata_and_reply env analysisData)
      (fun error =>
         console_error "❌ Error in food analysis:" [] ;;
         message <- read_message error ;;
         timestamp <- now_iso env ;;
         res_json 500 (JObj [
           ("error", JStr "Analysis failed");
           ("message", JStr (if String.eqb message ""
                             then "An unexpected error occurred"
                             else message));
           ("recognitionMethod", JStr "error");
           ("timestamp", JStr timestamp)
         ])).

End WithRuntime.
End AnalyzeFood.

(** ** Running a handler *)

Module Run.

(** What the client and an observer see of one invocation. *)
Definition response_of (m : M Response) : option Response :=
  match fst (run m) with
  | Normal r => Some r
  | Throw _ => None
  | Pending => None
  end.

Definition trace_of (m : M Response) : list event := trace (snd (run m)).
Definition headers_of (m : M Response) : list (string * string) :=
  headers (snd (run m)).

Definition is_model_call (e : event) : bool :=
  match e with
  | GenerateContent _ _ => true
  | _ => false
  end.

(** Whether the run sent a request to the external model. *)
Definition contacted_model (m : M Response) : bool :=
  existsb is_model_call (trace_of m).

End Run.
Import Run.

(** ** The README's rule listing

    README, "Rule-Based Analysis Engine": three example rules written as
    [IF ... : RETURN "avoid"], one after the other.  The first rule tests the
    single [food_category], the other two test membership in
    [food_categories]; both names are kept. *)

Module Readme.

Record Profile : Type := {
  gut_type : string;
  sensitivities : list string;
  spice_tolerance : Z
}.

Record Food : Type := {
  food_category : string;
  food_categories : list string
}.

(** Python's [x in xs] on a list of strings. *)
Definition contains (x : string) (xs : list string) : bool :=
  existsb (String.eqb x) xs.

(** The listed rules, named after what they test. *)
Inductive example_rule : Type :=
| InflammationFried   (* gut_type == "high_inflammation" AND food_category == "fried" *)
| LactoseDairy        (* "lactose" in sensitivities AND "dairy" in food_categories *)
| LowSpiceSpicy.      (* spice_tolerance == 1 AND "spicy" in food_categories *)

(** The order in which the README lists them. *)
Definition example_rules : list example_rule :=
  [InflammationFried; LactoseDairy; LowSpiceSpicy].

Definition condition (p : Profile) (f : Food) (r : example_rule) : bool :=
  match r with
  | InflammationFried =>
      String.eqb (gut_type p) "high_inflammation"
      && String.eqb (food_category f) "fried"
  | LactoseDairy =>
      contains "lactose" (sensitivities p) && contains "dairy" (food_categories f)
  | LowSpiceSpicy =>
      (spice_tolerance p =? 1) && contains "spicy" (food_categories f)
  end.

(** The listing as it reads: the first [IF] whose test holds returns.  The
    result names the rule that returned, next to the returned verdict; [None]
    when no listed rule returns. *)
Definition analyze (p : Profile) (f : Food) : option (example_rule * string) :=
  if String.eqb (gut_type p) "high_inflammation"
     && String.eqb (food_category f) "fried"
  then Some (InflammationFried, "avoid")
  else if contains "lactose" (sensitivities p)
          && contains "dairy" (food_categories f)
  then Some (LactoseDairy, "avoid")
  else if (spice_tolerance p =? 1) && contains "spicy" (food_categories f)
  then Some (LowSpiceSpicy, "avoid")
  else None.

End Readme.

(** ** The rule engine of the specification

    The repository has no source file for the rule engine that section 4.1
    of the specification describes (the README lists three example rules and
    no more).  Everything in this module is modelled from the specification's
    words. *)

Module SpecEngine.

(** Modelled from the spec: the reaction enumeration of the rule engine
    (section 3), which has no source file. *)
Inductive Reaction : Type := suitable | caution | avoid.

(** Modelled from the spec: the two failures of [classify] (section 4.1),
    which has no source file. *)
Inductive ClassifyError : Type := InvalidCategory | InvalidProfile.

(** Modelled from the spec: the six rules of [classify] (section 4.1), in
    the order the specification numbers them; the engine has no source
    file. *)
Inductive Rule : Type :=
| Rule1 | Rule2 | Rule3 | Rule4 | Rule5 | Rule6.

(** Modelled from the spec: the GutProfile the engine reads (section 3),
    with gut_type and spice_tolerance as they arrive, before validation; the
    engine has no source file. *)
Record GutProfile : Type := {
  gut_type : string;
  sensitivities : list string;
  spice_tolerance : Z
}.

(** Modelled from the spec: the result of [classify] (section 4.1), with
    the rule that decided it; the engine has no source file. *)
Record Verdict : Type := {
  fired : Rule;
  reaction : Reaction;
  explanation : string;
  confidenceScore : Z
}.

Definition has (x : string) (xs : list string) : bool :=
  existsb (String.eqb x) xs.

(** Modelled from the spec: the gut types of section 3; the registry has no
    source file. *)
Definition gut_types : list string :=
  ["balanced"; "high_inflammation"; "low_diversity"].

(** Modelled from the spec: the ranges of gut_type and spice_tolerance
    (section 3: one of three gut types, ordinal 1 to 3); the registry has no
    source file. *)
Definition valid_profile (p : GutProfile) : bool :=
  has (gut_type p) gut_types
  && (1 <=? spice_tolerance p) && (spice_tolerance p <=? 3).

(** Modelled from the spec: the condition of each rule of section 4.1;
    rule 6 is the default and applies to every input.  The engine has no
    source file. *)
Definition matches (r : Rule) (cats : list string) (p : GutProfile) : bool :=
  match r with
  | Rule1 => has "lactose" (sensitivities p) && has "dairy" cats
  | Rule2 => String.eqb (gut_type p) "high_inflammation" && has "fried" cats
  | Rule3 => (spice_tolerance p =? 1) && has "spicy" cats
  | Rule4 => has "fermented" cats || has "high_fiber" cats
  | Rule5 => has "acidic" cats && has "acidity" (sensitivities p)
  | Rule6 => true
  end.

(** Modelled from the spec: the order in which section 4.1 lists the rules;
    the engine has no source file. *)
Definition rule_order : list Rule :=
  [Rule1; Rule2; Rule3; Rule4; Rule5; Rule6].

Section Engine.

(** What the specification leaves open: the category vocabulary (its list
    ends in an ellipsis), which categories are of the "processed" type, and
    the explanation and the confidence constant attached to each rule. *)
Variable vocabulary : list string.
Variable processed_type : string -> bool.
Variable explanation_of : Rule -> Reaction -> string.
Variable confidence_of : Rule -> Z.

(** Modelled from the spec: "drawn from the fixed category vocabulary"
    (section 4.1); the engine has no source file. *)
Definition valid_categories (cats : list string) : bool :=
  forallb (fun c => has c vocabulary) cats.

(** Modelled from the spec: the failure clause of [classify] (section 4.1);
    the repository has no source file for the rule engine.  Each violated
    input constraint is reported, as section 7 asks of a validation error
    ("field-level detail"): [InvalidCategory] when a category lies outside
    the vocabulary, [InvalidProfile] when gut_type or spice_tolerance lies
    outside its range. *)
Definition violations (cats : list string) (p : GutProfile)
  : list ClassifyError :=
  (if valid_categories cats then [] else [InvalidCategory])
  ++ (if valid_profile p then [] else [InvalidProfile]).

Definition verdict (r : Rule) (x : Reaction) : Verdict :=
  {| fired := r; reaction := x;
     explanation := explanation_of r x; confidenceScore := confidence_of r |}.

(** Modelled from the spec: the ordered rule list of [classify] (section
    4.1, rules 1 to 6, first match wins); the repository has no source file
    for the rule engine. *)
Definition apply_rules (cats : list string) (p : GutProfile) : Verdict :=
  if has "lactose" (sensitivities p) && has "dairy" cats then verdict Rule1 avoid
  else if String.eqb (gut_type p) "high_inflammation" && has "fried" cats
  then verdict Rule2 avoid
  else if (spice_tolerance p =? 1) && has "spicy" cats then verdict Rule3 avoid
  else if has "fermented" cats || has "high_fiber" cats
  then verdict Rule4 suitable
  else if has "acidic" cats && has "acidity" (sensitivities p)
  then verdict Rule5 caution
  else if existsb processed_type cats then verdict Rule6 caution
  else verdict Rule6 suitable.

(** Modelled from the spec: [classify(foodCategories, profile)] of section
    4.1, which the repository has no source file for: it fails with the
    violated constraints, and otherwise answers by the rule list. *)
Definition classify (cats : list string) (p : GutProfile)
  : list ClassifyError + Verdict :=
  match violations cats p with
  | [] => inr (apply_rules cats p)
  | errs => inl errs
  end.

(** Modelled from the spec: "fails with" an error (section 4.1), read as
    that error being among the reported ones; the engine has no source
    file. *)
Definition fails_with (e : ClassifyError) (r : list ClassifyError + Verdict)
  : Prop :=
  match r with
  | inl errs => In e errs
  | inr _ => False
  end.

End Engine.
End SpecEngine.

(** ** A concrete runtime for running the handlers

    The theorems below hold for every [Runtime].  To run the handlers on
    concrete requests a runtime is fixed here: it trims ASCII white space,
    prints times of the first day of the epoch as [toISOString] does, words
    type errors as V8 does, and parses the upstream replies listed in
    [replies] to the values [JSON.parse] gives for them. *)

Module Demo.

Definition is_space (c : ascii) : bool :=
  let n := nat_of_ascii c in
  (Nat.eqb n 32 || (Nat.leb 9 n && Nat.leb n 13))%bool.

Fixpoint trim_left (s : string) : string :=
  match s with
  | String c rest => if is_space c then trim_left rest else s
  | EmptyString => EmptyString
  end.

Fixpoint rev_string (acc s : string) : string :=
  match s with
  | EmptyString => acc
  | String c rest => rev_string (String c acc) rest
  end.

Definition trim_ascii (s : string) : string :=
  rev_string EmptyString (trim_left (rev_string EmptyString (trim_left s))).

Definition digit (n : Z) : string :=
  String (ascii_of_nat (48 + Z.to_nat (n mod 10))) EmptyString.

Definition pad2 (n : Z) : string := digit (n / 10) ++ digit n.
Definition pad3 (n : Z) : string := digit (n / 100) ++ pad2 n.

(** [new Date(t).toISOString()] for [0 <= t < 86400000]. *)
Definition iso_first_day (t : Z) : string :=
  let ms := t mod 86400000 in
  "1970-01-01T" ++ pad2 (ms / 3600000) ++ ":" ++ pad2 ((ms / 60000) mod 60)
  ++ ":" ++ pad2 ((ms / 1000) mod 60) ++ "." ++ pad3 (ms mod 1000) ++ "Z".

Definition quoted (s : string) : string :=
  String "034"%char (s ++ String "034"%char EmptyString).

(** A reply that parses and carries the marker of the fallback. *)
Definition reply_marked_fallback : string :=
  "{" ++ quoted "reaction" ++ ":" ++ quoted "avoid" ++ ","
  ++ quoted "recognitionMethod" ++ ":" ++ quoted "gemini_ai_fallback" ++ "}".

(** A reply as the prompt asks for it, cut down to four fields. *)
Definition reply_as_prompted : string :=
  "{" ++ quoted "confidence" ++ ":92,"
  ++ quoted "reaction" ++ ":" ++ quoted "excellent" ++ ","
  ++ quoted "explanation" ++ ":" ++ quoted "Steamed and fermented" ++ ","
  ++ quoted "recognitionMethod" ++ ":" ++ quoted "gemini_ai" ++ "}".

(** A reply whose confidence is a fraction of one. *)
Definition reply_fraction : string :=
  "{" ++ quoted "confidence" ++ ":0.85," 
  ++ quoted "reaction" ++ ":" ++ quoted "suitable" ++ "}".

(** A reply whose confidence is above one hundred. *)
Definition reply_overconfident : string :=
  "{" ++ quoted "confidence" ++ ":150,"
  ++ quoted "reaction" ++ ":" ++ quoted "suitable" ++ "}".

(** A reply whose reaction is none of the four words of the prompt. *)
Definition reply_other_reaction : string :=
  "{" ++ quoted "confidence" ++ ":80,"
  ++ quoted "reaction" ++ ":" ++ quoted "moderate" ++ "}".

Definition replies : list (string * json) := [
  (reply_marked_fallback,
   JObj [("reaction", JStr "avoid");
         ("recognitionMethod", JStr "gemini_ai_fallback")]);
  (reply_as_prompted,
   JObj [("confidence", num 92);
         ("reaction", JStr "excellent");
         ("explanation", JStr "Steamed and fermented");
         ("recognitionMethod", JStr "gemini_ai")]);
  (reply_fraction,
   JObj [("confidence", JNum (85 # 100)); ("reaction", JStr "suitable")]);
  (reply_overconfident,
   JObj [("confidence", num 150); ("reaction", JStr "suitable")]);
  (reply_other_reaction,
   JObj [("confidence", num 80); ("reaction", JStr "moderate")]);
  ("null", JNull)
].

Definition parse_listed (s : string) : option json := Json.assoc s replies.

Definition v8_message (e : type_error) : string :=
  match e with
  | Destructure Undefined =>
      "Cannot destructure property 'image' of 'req.body' as it is undefined."
  | Destructure Null =>
      "Cannot destructure property 'image' of 'req.body' as it is null."
  | NotAFunction callee => callee ++ " is not a function"
  | SetPropertyOfNull key =>
      "Cannot set properties of null (setting '" ++ key ++ "')"
  | CreatePropertyOnPrimitive key _ =>
      "Cannot create property '" ++ key ++ "' on a primitive value"
  | ReadPropertyOf Undefined key =>
      "Cannot read properties of undefined (reading '" ++ key ++ "')"
  | ReadPropertyOf Null key =>
      "Cannot read properties of null (reading '" ++ key ++ "')"
  end.

#[local] Instance runtime : Runtime := {|
  JSON_parse := parse_listed;
  trim := trim_ascii;
  toISOString := iso_first_day;
  type_error_message := v8_message
|}.

(** Deployments: with and without the API key, the clock at two different
    times, and the upstream replies. *)
Definition env_with (key : option string) (t0 : Z) (up : upstream_reply) : Env :=
  {| GEMINI_API_KEY := key;
     clock := fun n => t0 + Z.of_nat n;
     upstream := up |}.

Definition key : option string := Some "secret-key".

Definition post (b : json) : Request := {| method := "POST"; body := Some b |}.

Definition with_image : json :=
  JObj [("image", JStr "data:image/jpeg;base64,AAAA")].

Definition name_only : json := JObj [("food_name", JStr "idli")].

(** A deployment without an API key, and one with a key whose model replies
    with [text]; the clock starts at 00:00:05. *)
Definition offline : Env := env_with None 5000 (UpstreamText "").
Definition online (text : string) : Env := env_with key 5000 (UpstreamText text).

(** The handlers on this runtime. *)
Definition run_health : Env -> Request -> M Response := Health.handler.
Definition run_simple : Env -> Request -> M Response := AnalyzeFoodSimple.handler.
Definition run_gemini : Env -> Request -> M Response := AnalyzeFood.handler.
Definition parse_reply (text : string) : option json :=
  JSON_parse (clean_response text).

(** The answer of the simple handler at 00:00:05. *)
Definition mock_response : Response :=
  {| status := 200;
     payload := Some (AnalyzeFoodSimple.mockAnalysis "1970-01-01T00:00:05.000Z") |}.

Definition get_request : Request := {| method := "GET"; body := None |}.
Definition options_request : Request := {| method := "OPTIONS"; body := None |}.

(** A food for the README's rules: fried, with dairy among its
    categories. *)
Definition fried_dairy : Readme.Food :=
  {| Readme.food_category := "fried";
     Readme.food_categories := ["dairy"; "fried"] |}.

(** An instance of what the specification leaves open in its engine. *)
Definition vocabulary : list string :=
  ["fried"; "spicy"; "dairy"; "acidic"; "high_fiber"; "fermented"; "gentle";
   "processed"].

Definition processed_type (c : string) : bool := String.eqb c "processed".

Definition explanation_of (r : SpecEngine.Rule) (x : SpecEngine.Reaction)
  : string :=
  match r with
  | SpecEngine.Rule1 => "lactose sensitivity and dairy"
  | SpecEngine.Rule2 => "high inflammation and fried food"
  | SpecEngine.Rule3 => "low spice tolerance and spicy food"
  | SpecEngine.Rule4 => "fermented or high-fibre food"
  | SpecEngine.Rule5 => "acidity sensitivity and acidic food"
  | SpecEngine.Rule6 => "no specific rule"
  end.

Definition confidence_of (r : SpecEngine.Rule) : Z :=
  match r with
  | SpecEngine.Rule6 => 60
  | _ => 90
  end.

Definition classify : list string -> SpecEngine.GutProfile ->
                      list SpecEngine.ClassifyError + SpecEngine.Verdict :=
  SpecEngine.classify vocabulary processed_type explanation_of confidence_of.

Definition default_profile : SpecEngine.GutProfile :=
  {| SpecEngine.gut_type := "balanced";
     SpecEngine.sensitivities := [];
     SpecEngine.spice_tolerance := 2 |}.

Definition out_of_range_profile : SpecEngine.GutProfile :=
  {| SpecEngine.gut_type := "balanced";
     SpecEngine.sensitivities := [];
     SpecEngine.spice_tolerance := 7 |}.

End Demo.

(** ** What is read off a response *)

Module Observe.

(** Field [k] of the JSON body of a response; [None] when there is no body
    or the body has no such field. *)
Definition body_field (k : string) (r : Response) : option json :=
  match payload r with
  | Some v => get k v
  | None => None
  end.

(** Field [k] of the body a run replies with. *)
Definition field_of (k : string) (m : M Response) : option json :=
  match response_of m with
  | Some r => body_field k r
  | None => None
  end.

Definition status_of (m : M Response) : option Z :=
  option_map status (response_of m).

(** The three assignments of lines 169-171 on the fields of an object. *)
Definition with_metadata (now : Z) (fs : list (string * json))
  : list (string * json) :=
  assoc_set "processingTime" (num now)
    (assoc_set "model" (JStr "gemini-2.0-flash-exp")
       (assoc_set "apiVersion" (JStr "1.0") fs)).

Definition metadata_keys : list string :=
  ["apiVersion"; "model"; "processingTime"].

(** The fields the specification lists for an analysis, under the key names
    the handlers use. *)
Definition analysis_shaped (v : json) : Prop :=
  is_string (get "reaction" v) = true
  /\ is_string (get "explanation" v) = true
  /\ is_array (get "alternatives" v) = true
  /\ is_number (get "confidence" v) = true.

(** The reaction words of the prompt. *)
Definition reaction_words : list string :=
  ["excellent"; "suitable"; "caution"; "avoid"].

Definition is_reaction_word (v : option json) : bool :=
  match v with
  | Some (JStr s) => existsb (String.eqb s) reaction_words
  | _ => false
  end.

(** The request reaches the image check with an image that passes it. *)
Definition has_image (req : Request) : Prop :=
  exists b, body req = Some b /\ truthy_opt (get "image" b) = true.

(** The request has a body that can be destructured and whose [image] is
    missing or falsy. *)
Definition lacks_image (req : Request) : Prop :=
  exists b,
    body req = Some b /\ b <> JNull /\ truthy_opt (get "image" b) = false.

Definition supplies_food_name (req : Request) : Prop :=
  exists b name, body req = Some b /\ get "food_name" b = Some (JStr name).

End Observe.
Import Observe.

(** ** Further observations on a run *)

Module Coverage.

(** How many requests a run sent to the external model. *)
Definition model_calls (m : M Response) : nat :=
  List.length (filter is_model_call (trace_of m)).

(** The image part of the first request a run sent to the model. *)
Fixpoint first_image (t : list event) : option InlineData :=
  match t with
  | [] => None
  | GenerateContent _ image :: _ => Some image
  | _ :: rest => first_image rest
  end.

Definition sent_image (m : M Response) : option InlineData :=
  first_image (trace_of m).

(** The status codes the analyze handlers use. *)
Definition statuses : list Z := [200; 400; 405; 500].

(** The body is an object (or any other value that can be destructured) whose
    [image] is the non-empty string [s]. *)
Definition image_string (req : Request) (s : string) : Prop :=
  exists b, body req = Some b /\ get "image" b = Some (JStr s) /\ s <> "".


(** The body is [undefined] or [null]. *)
Definition no_body (req : Request) : Prop :=
  body req = None \/ body req = Some JNull.

(** [req.body] as a value without properties: absent, or [null]. *)
Definition nullish_body (value : nullish) : option json :=
  match value with
  | Undefined => None
  | Null => Some JNull
  end.

(** What the metadata assignments of lines 169-171 accept: no parse result
    at all (the fallback object is used), an object, or an array. *)
Definition usable_reply (parsed : option json) : bool :=
  match parsed with
  | None => true
  | Some (JObj _) => true
  | Some (JArr _) => true
  | Some _ => false
  end.

(** [error.message || 'An unexpected error occurred'] (line 184). *)
Definition message_or_default (message : string) : string :=
  if String.eqb message "" then "An unexpected error occurred" else message.

(** The body of the answer built in the outer [catch] (lines 182-187). *)
Definition analysis_failed (message timestamp : string) : json :=
  JObj [
    ("error", JStr "Analysis failed");
    ("message", JStr (message_or_default message));
    ("recognitionMethod", JStr "error");
    ("timestamp", JStr timestamp)
  ].

(** The same deployment with another value of GEMINI_API_KEY. *)
Definition with_key (k : option string) (env : Env) : Env :=
  {| GEMINI_API_KEY := k; clock := clock env; upstream := upstream env |}.

(** A POST whose body is the object with fields [fs]. *)
Definition post_object (fs : list (string * json)) : Request :=
  {| method := "POST"; body := Some (JObj fs) |}.

(** The CORS headers each function sets, in the order it sets them. *)
Definition cors_health : list (string * string) := [
  ("Access-Control-Allow-Origin", "*");
  ("Access-Control-Allow-Methods", "GET, POST, PUT, DELETE, OPTIONS");
  ("Access-Control-Allow-Headers",
   "Content-Type, Authorization, X-Requested-With");
  ("Access-Control-Max-Age", "86400")
].

Definition cors_simple : list (string * string) := [
  ("Access-Control-Allow-Origin", "*");
  ("Access-Control-Allow-Methods", "GET, POST, OPTIONS");
  ("Access-Control-Allow-Headers", "Content-Type")
].

Definition cors_gemini : list (string * string) := [
  ("Access-Control-Allow-Origin", "*");
  ("Access-Control-Allow-Methods", "POST, OPTIONS");
  ("Access-Control-Allow-Headers", "Content-Type")
].

(** Character [c] does not occur in [s]. *)
Fixpoint no_char (c : ascii) (s : string) : bool :=
  match s with
  | EmptyString => true
  | String d rest => negb (Ascii.eqb d c) && no_char c rest
  end.

(** [pat] occurs in [s] as a substring. *)
Fixpoint occurs (pat s : string) : bool :=
  String.prefix pat s
  || match s with
     | EmptyString => false
     | String _ rest => occurs pat rest
     end.

Definition backtick : ascii := "`"%char.
Definition fence : string := "```".
Definition fence_json : string := "```json".

(** The two [replace] calls of line 138, before [trim]. *)
Definition strip_fences (text : string) : string :=
  remove_with_newline fence 0 (remove_with_newline fence_json 0 text).

(** A data URL of an image: [data:image/<subtype>;<params>,<payload>]. *)
Definition data_url (subtype params payload : string) : string :=
  "data:image/" ++ subtype ++ ";" ++ params ++ "," ++ payload.

(** The result of [prepare_image] run on its own. *)
Definition prepared (image : option json) : completion InlineData :=
  fst (run (AnalyzeFood.prepare_image image)).

(** Profile [q] has every sensitivity of [p] and is otherwise [p]; food [g]
    has every category of [f] and is otherwise [f]. *)
Definition more_sensitive (p q : Readme.Profile) : Prop :=
  Readme.gut_type q = Readme.gut_type p
  /\ Readme.spice_tolerance q = Readme.spice_tolerance p
  /\ incl (Readme.sensitivities p) (Readme.sensitivities q).

Definition more_categories (f g : Readme.Food) : Prop :=
  Readme.food_category g = Readme.food_category f
  /\ incl (Readme.food_categories f) (Readme.food_categories g).

End Coverage.
Import Coverage.

(** Further inputs for running the handlers on the concrete runtime. *)

Module DemoMore.

Definition run_test : Env -> Request -> M Response :=
  @TestEndpoint.handler Demo.runtime.

Definition put_request : Request := {| method := "PUT"; body := None |}.
Definition empty_post : Request := {| method := "POST"; body := None |}.
Definition null_post : Request := {| method := "POST"; body := Some JNull |}.

Definition hanging : Env := Demo.env_with Demo.key 5000 UpstreamNeverSettles.

Definition other_key (text : string) : Env :=
  Demo.env_with (Some "another-key") 5000 (UpstreamText text).


Definition png_url : string := data_url "png" "base64" "iVBORw0KGgo=".

Definition with_png : json := JObj [("image", JStr png_url)].


Definition fenced_reply : string :=
  fence_json ++ String newline ("{}" ++ String newline fence).

Definition spicy_only : Readme.Food :=
  {| Readme.food_category := "spicy";
     Readme.food_categories := ["spicy"] |}.

Definition low_spice : Readme.Profile :=
  {| Readme.gut_type := "balanced";
     Readme.sensitivities := [];
     Readme.spice_tolerance := 1 |}.

Definition low_spice_ibs : Readme.Profile :=
  {| Readme.gut_type := "balanced";
     Readme.sensitivities := ["ibs"];
     Readme.spice_tolerance := 1 |}.

Definition spicy_fried : Readme.Food :=
  {| Readme.food_category := "spicy";
     Readme.food_categories := ["fried"; "spicy"] |}.

Definition inflamed_lactose_profile : SpecEngine.GutProfile :=
  {| SpecEngine.gut_type := "high_inflammation";
     SpecEngine.sensitivities := ["lactose"];
     SpecEngine.spice_tolerance := 2 |}.

Definition balanced_profile : Readme.Profile :=
  {| Readme.gut_type := "balanced";
     Readme.sensitivities := ["ibs"; "acidity"];
     Readme.spice_tolerance := 2 |}.

End DemoMore.

(** ** Lemmas on field lists *)

Lemma assoc_set_same (k : string) (v : json) (fs : list (string * json)) :
  assoc k (assoc_set k v fs) = Some v.
Proof.
  induction fs as [| [k' v'] rest IH]; simpl.
  - now rewrite String.eqb_refl.
  - destruct (String.eqb k k') eqn:E; simpl.
    + now rewrite String.eqb_refl.
    + now rewrite E.
Qed.

Lemma assoc_set_other (k k' : string) (v : json) (fs : list (string * json)) :
  k <> k' -> assoc k (assoc_set k' v fs) = assoc k fs.
Proof.
  intros Hne.
  apply String.eqb_neq in Hne.
  induction fs as [| [k0 v0] rest IH]; simpl.
  - now rewrite Hne.
  - destruct (String.eqb k' k0) eqn:E; simpl.
    + apply String.eqb_eq in E; subst k0. now rewrite Hne.
    + now rewrite IH.
Qed.

Lemma with_metadata_other (k : string) (now : Z) (fs : list (string * json)) :
  ~ In k metadata_keys -> assoc k (with_metadata now fs) = assoc k fs.
Proof.
  intros Hk. unfold with_metadata.
  rewrite !assoc_set_other; trivial;
    intros ->; apply Hk; simpl; auto.
Qed.

(** ** Running the handlers *)

Ltac unfold_run :=
  unfold field_of, body_field, status_of, contacted_model, trace_of,
    response_of, run,
    AnalyzeFood.handler, AnalyzeFoodSimple.handler, Health.handler,
    AnalyzeFood.add_metadata_and_reply, AnalyzeFood.parse_or_fallback,
    AnalyzeFood.generateContent, AnalyzeFood.prepare_image, destructure, now_iso, read_clock,
    console_log, console_error, emit, setHeader, res_json, res_end,
    read_message, never, try_catch, bind, ret, throw, assign, world0 in *.

(** The simple handler on a POST, case by case on the body. *)
Lemma handler_simple_post `{rt : Runtime} (env : Env) (req : Request) :
  method req = "POST" ->
  response_of (AnalyzeFoodSimple.handler env req) =
  Some match body req with
       | None =>
           {| status := 500;
              payload := Some (JObj [
                ("error", JStr "Analysis failed");
                ("message",
                 JStr (type_error_message (Destructure Undefined)));
                ("timestamp", JStr (toISOString (clock env 0)))]) |}
       | Some JNull =>
           {| status := 500;
              payload := Some (JObj [
                ("error", JStr "Analysis failed");
                ("message", JStr (type_error_message (Destructure Null)));
                ("timestamp", JStr (toISOString (clock env 0)))]) |}
       | Some b =>
           if truthy_opt (get "image" b)
           then {| status := 200;
                   payload := Some (AnalyzeFoodSimple.mockAnalysis (toISOString (clock env 0))) |}
           else {| status := 400;
                   payload := Some (JObj [("error", JStr "Image required")]) |}
       end
  /\ trace_of (AnalyzeFoodSimple.handler env req) = [].
Proof.
  intros Hm. unfold_run. rewrite Hm. cbn.
  destruct (body req) as [b |]; cbn; [| now split].
  destruct b; cbn; try now split.
  destruct (truthy_opt (assoc "image" fields)); cbn; now split.
Qed.

(** The Gemini handler without a usable API key. *)
Lemma handler_post_no_key `{rt : Runtime} (env : Env) (req : Request) :
  method req = "POST" ->
  env_truthy (GEMINI_API_KEY env) = false ->
  response_of (AnalyzeFood.handler env req) =
    Some {| status := 500;
            payload := Some (JObj [
              ("error", JStr "Configuration error");
              ("message", JStr "API key not configured")]) |}
  /\ trace_of (AnalyzeFood.handler env req) =
       [ConsoleError "❌ GEMINI_API_KEY not found in environment variables" []].
Proof.
  intros Hm Hk. unfold_run. rewrite Hm, Hk. cbn. now split.
Qed.

(** The Gemini handler on a POST without an image. *)
Lemma handler_post_no_image `{rt : Runtime} (env : Env) (req : Request) :
  method req = "POST" ->
  env_truthy (GEMINI_API_KEY env) = true ->
  lacks_image req ->
  response_of (AnalyzeFood.handler env req) =
    Some {| status := 400;
            payload := Some (JObj [
              ("error", JStr "Bad request");
              ("message", JStr "Image data is required")]) |}
  /\ trace_of (AnalyzeFood.handler env req) = [].
Proof.
  intros Hm Hk (b & Hb & Hn & Hi). unfold_run. rewrite Hm, Hk, Hb. cbn.
  destruct b; cbn in *; try now split.
  rewrite Hi. cbn. now split.
Qed.

(** The Gemini handler once the model has replied with [text]. *)
Lemma handler_post_reply `{rt : Runtime} (env : Env) (req : Request)
    (b : json) (s text : string) :
  method req = "POST" ->
  env_truthy (GEMINI_API_KEY env) = true ->
  body req = Some b ->
  get "image" b = Some (JStr s) ->
  s <> "" ->
  upstream env = UpstreamText text ->
  match JSON_parse (clean_response text) with
  | None =>
      exists fs,
        AnalyzeFood.fallbackAnalysis (toISOString (clock env 1)) = JObj fs
        /\ response_of (AnalyzeFood.handler env req) =
           Some {| status := 200;
                   payload := Some (JObj (with_metadata (clock env 2) fs)) |}
  | Some (JObj fs) =>
      response_of (AnalyzeFood.handler env req) =
        Some {| status := 200;
                payload := Some (JObj (with_metadata (clock env 1) fs)) |}
  | Some (JArr items) =>
      response_of (AnalyzeFood.handler env req) =
        Some {| status := 200; payload := Some (JArr items) |}
  | Some _ =>
      exists err timestamp,
        response_of (AnalyzeFood.handler env req) =
          Some {| status := 500;
                  payload := Some (JObj [
                    ("error", JStr "Analysis failed");
                    ("message", JStr err);
                    ("recognitionMethod", JStr "error");
                    ("timestamp", JStr timestamp)]) |}
  end
  /\ contacted_model (AnalyzeFood.handler env req) = true.
Proof.
  intros Hm Hk Hb Hi Hs Hu.
  assert (Ht : truthy_opt (get "image" b) = true).
  { rewrite Hi. cbn. now apply String.eqb_neq in Hs as ->. }
  unfold_run. rewrite Hm, Hk, Hb. cbn.
  destruct b; cbn in *; try discriminate.
  rewrite Ht, Hi. cbn.
  destruct (String.prefix "data:image/" s); cbn; rewrite Hu; cbn.
  all: destruct (JSON_parse (clean_response text)) as [[| | | | |] |]; cbn.
  all: try (split; [| reflexivity ]).
  all: try reflexivity.
  all: try (eexists; eexists; reflexivity).
  all: try (eexists; split; reflexivity).
Qed.

(** A run of the Gemini handler that calls the model was a POST, found an
    API key and found a non-empty string under [image]. *)
Lemma handler_contacted_inv `{rt : Runtime} (env : Env) (req : Request) :
  contacted_model (AnalyzeFood.handler env req) = true ->
  method req = "POST"
  /\ env_truthy (GEMINI_API_KEY env) = true
  /\ exists b s, body req = Some b /\ get "image" b = Some (JStr s) /\ s <> "".
Proof.
  intros H. unfold_run.
  destruct (String.eqb (method req) "OPTIONS") eqn:Eo; cbn in H;
    [discriminate |].
  destruct (String.eqb (method req) "POST") eqn:Ep; cbn in H;
    [| discriminate].
  apply String.eqb_eq in Ep.
  destruct (env_truthy (GEMINI_API_KEY env)) eqn:Ek; cbn in H;
    [| discriminate].
  destruct (body req) as [b |] eqn:Eb; cbn in H; [| discriminate].
  destruct b; cbn in H; try discriminate.
  destruct (assoc "image" fields) as [[| | | s | |] |] eqn:Ei; cbn in H;
    try discriminate.
  - destruct b; cbn in H; discriminate.
  - destruct (negb (Qeq_bool q 0)); cbn in H; discriminate.
  - destruct (String.eqb s "") eqn:Es; cbn in H; [discriminate |].
    apply String.eqb_neq in Es.
    repeat split; trivial. exists (JObj fields), s. cbn. now repeat split.
Qed.

(** A successful answer of the Gemini handler to a POST came after a reply
    of the model. *)
Lemma handler_post_ok_inv `{rt : Runtime} (env : Env) (req : Request)
    (r : Response) :
  method req = "POST" ->
  response_of (AnalyzeFood.handler env req) = Some r ->
  status r = 200 ->
  env_truthy (GEMINI_API_KEY env) = true
  /\ exists b s text,
       body req = Some b /\ get "image" b = Some (JStr s) /\ s <> ""
       /\ upstream env = UpstreamText text.
Proof.
  intros Hm H Hs. unfold_run. rewrite Hm in H. cbn in H.
  destruct (env_truthy (GEMINI_API_KEY env)) eqn:Ek; cbn in H;
    [| injection H as <-; discriminate].
  split; trivial.
  destruct (body req) as [b |] eqn:Eb; cbn in H;
    [| injection H as <-; discriminate].
  destruct b; cbn in H; try (injection H as <-; discriminate).
  destruct (assoc "image" fields) as [[| | | s | |] |] eqn:Ei; cbn in H;
    try (injection H as <-; discriminate).
  - destruct b; cbn in H; injection H as <-; discriminate.
  - destruct (negb (Qeq_bool q 0)); cbn in H; injection H as <-; discriminate.
  - destruct (String.eqb s "") eqn:Es; cbn in H;
      [injection H as <-; discriminate |].
    apply String.eqb_neq in Es.
    destruct (upstream env) as [m | text | [] |] eqn:Eu.
    2: { exists (JObj fields), s, text. cbn. now repeat split. }
    all: destruct (String.prefix "data:image/" s); cbn in H;
      try discriminate; injection H as <-; discriminate.
Qed.

(** The body of a successful answer of the simple handler to a POST. *)
Lemma handler_simple_ok_body `{rt : Runtime} (env : Env) (req : Request)
    (r : Response) :
  method req = "POST" ->
  response_of (AnalyzeFoodSimple.handler env req) = Some r ->
  status r = 200 ->
  payload r = Some (AnalyzeFoodSimple.mockAnalysis (toISOString (clock env 0))).
Proof.
  intros Hm H Hs.
  destruct (handler_simple_post env req Hm) as [Hr _].
  rewrite Hr in H. injection H as <-.
  destruct (body req) as [[| | | | |] |]; cbn in *; try discriminate;
    destruct (truthy_opt _); cbn in *; try discriminate; reflexivity.
Qed.

(** The body of a successful answer of the Gemini handler to a POST: the
    fallback with the metadata when the reply does not parse, and otherwise
    the reply, field by field, outside the metadata. *)
Lemma handler_ok_body `{rt : Runtime} (env : Env) (req : Request)
    (r : Response) :
  method req = "POST" ->
  response_of (AnalyzeFood.handler env req) = Some r ->
  status r = 200 ->
  exists text,
    upstream env = UpstreamText text
    /\ match JSON_parse (clean_response text) with
       | None =>
           exists fs,
             AnalyzeFood.fallbackAnalysis (toISOString (clock env 1)) = JObj fs
             /\ payload r = Some (JObj (with_metadata (clock env 2) fs))
       | Some reply =>
           forall k, ~ In k metadata_keys -> body_field k r = get k reply
       end.
Proof.
  intros Hm H Hs.
  destruct (handler_post_ok_inv env req r Hm H Hs)
    as (Hk & b & s & text & Hb & Hi & Hne & Hu).
  exists text. split; trivial.
  destruct (handler_post_reply env req b s text Hm Hk Hb Hi Hne Hu) as [Hr _].
  destruct (JSON_parse (clean_response text)) as [[| | | | |] |].
  all: try (destruct Hr as (err & ts & Hr); rewrite Hr in H;
            injection H as <-; discriminate).
  - rewrite Hr in H. injection H as <-. intros k _. reflexivity.
  - rewrite Hr in H. injection H as <-. intros k Hk'.
    unfold body_field. cbn. now apply with_metadata_other.
  - destruct Hr as (fs & Hf & Hr). rewrite Hr in H. injection H as <-.
    exists fs. now split.
Qed.

(** Outside the metadata and the timestamp, no field of the Gemini
    handler's answer depends on the clock. *)
Lemma handler_field_clock_free `{rt : Runtime} (env1 env2 : Env)
    (req : Request) (k : string) :
  GEMINI_API_KEY env1 = GEMINI_API_KEY env2 ->
  upstream env1 = upstream env2 ->
  In k ["reaction"; "explanation"; "confidence"] ->
  field_of k (AnalyzeFood.handler env1 req) = field_of k (AnalyzeFood.handler env2 req).
Proof.
  intros Hkey Hup Hin.
  unfold_run. rewrite <- Hkey, <- Hup.
  destruct (String.eqb (method req) "OPTIONS"); cbn; trivial.
  destruct (String.eqb (method req) "POST"); cbn; trivial.
  destruct (env_truthy (GEMINI_API_KEY env1)); cbn; trivial.
  destruct (body req) as [b |]; cbn.
  2: { destruct Hin as [<- | [<- | [<- | []]]]; reflexivity. }
  destruct b; cbn; trivial.
  1: { destruct Hin as [<- | [<- | [<- | []]]]; reflexivity. }
  destruct (assoc "image" fields) as [[| | | s | |] |]; cbn; trivial.
  all: try (destruct Hin as [<- | [<- | [<- | []]]]; reflexivity).
  - destruct b; cbn; trivial.
    destruct Hin as [<- | [<- | [<- | []]]]; reflexivity.
  - destruct (negb (Qeq_bool q 0)); cbn; trivial.
    destruct Hin as [<- | [<- | [<- | []]]]; reflexivity.
  - destruct (String.eqb s ""); cbn; trivial.
    destruct (String.prefix "data:image/" s); cbn;
      destruct (upstream env1) as [m | text | [] |]; cbn.
    all: try (destruct Hin as [<- | [<- | [<- | []]]]; reflexivity).
    all: destruct (JSON_parse (clean_response text)) as [[| | | | |] |]; cbn.
    all: try (destruct Hin as [<- | [<- | [<- | []]]]; reflexivity).
    all: destruct Hin as [<- | [<- | [<- | []]]];
      rewrite !assoc_set_other by discriminate; reflexivity.
Qed.

(** ** The README's rules *)

Lemma contains_In (x : string) (xs : list string) :
  Readme.contains x xs = true <-> In x xs.
Proof.
  unfold Readme.contains. rewrite existsb_exists. split.
  - intros (y & Hy & E). apply String.eqb_eq in E. now subst.
  - intros H. exists x. split; trivial. apply String.eqb_refl.
Qed.

(** The IF chain is the first match in the listed order. *)
Lemma analyze_first_match (p : Readme.Profile) (f : Readme.Food) :
  Readme.analyze p f =
  option_map (fun r => (r, "avoid"))
             (find (Readme.condition p f) Readme.example_rules).
Proof.
  unfold Readme.analyze, Readme.example_rules. cbn.
  destruct (_ && _); cbn; trivial.
  destruct (_ && _); cbn; trivial.
  destruct (_ && _); cbn; trivial.
Qed.

(** ** The engine of the specification *)

Lemma has_In (x : string) (xs : list string) :
  SpecEngine.has x xs = true <-> In x xs.
Proof.
  unfold SpecEngine.has. rewrite existsb_exists. split.
  - intros (y & Hy & E). apply String.eqb_eq in E. now subst.
  - intros H. exists x. split; trivial. apply String.eqb_refl.
Qed.

Lemma valid_categories_spec (vocabulary cats : list string) :
  SpecEngine.valid_categories vocabulary cats = true
  <-> (forall c, In c cats -> In c vocabulary).
Proof.
  unfold SpecEngine.valid_categories. rewrite forallb_forall.
  split; intros H c Hc; apply has_In; auto.
Qed.

Lemma valid_profile_spec (p : SpecEngine.GutProfile) :
  SpecEngine.valid_profile p = true
  <-> In (SpecEngine.gut_type p) SpecEngine.gut_types
      /\ 1 <= SpecEngine.spice_tolerance p <= 3.
Proof.
  unfold SpecEngine.valid_profile.
  rewrite !andb_true_iff, has_In, !Z.leb_le. tauto.
Qed.

(** In the engine of the specification the lactose/dairy rule decides every
    input with the lactose sensitivity and a dairy category, whatever the gut
    type and the other categories are. *)
Lemma spec_order_puts_lactose_first
    (processed_type : string -> bool)
    (explanation_of : SpecEngine.Rule -> SpecEngine.Reaction -> string)
    (confidence_of : SpecEngine.Rule -> Z)
    (cats : list string) (p : SpecEngine.GutProfile) :
  In "lactose" (SpecEngine.sensitivities p) ->
  In "dairy" cats ->
  SpecEngine.fired (SpecEngine.apply_rules processed_type explanation_of
                                           confidence_of cats p)
  = SpecEngine.Rule1
  /\ SpecEngine.reaction (SpecEngine.apply_rules processed_type explanation_of
                                                 confidence_of cats p)
     = SpecEngine.avoid.
Proof.
  intros Hl Hd. apply has_In in Hl, Hd.
  unfold SpecEngine.apply_rules. rewrite Hl, Hd. now split.
Qed.

(** The rule list is a priority list: the rule that decides is the first
    rule, in the order of section 4.1, whose condition holds. *)
Lemma apply_rules_first_match
    (processed_type : string -> bool)
    (explanation_of : SpecEngine.Rule -> SpecEngine.Reaction -> string)
    (confidence_of : SpecEngine.Rule -> Z)
    (cats : list string) (p : SpecEngine.GutProfile) :
  find (fun r => SpecEngine.matches r cats p) SpecEngine.rule_order
  = Some (SpecEngine.fired
            (SpecEngine.apply_rules processed_type explanation_of
                                    confidence_of cats p)).
Proof.
  unfold SpecEngine.apply_rules, SpecEngine.rule_order. cbn.
  destruct (_ && _); cbn; trivial.
  destruct (_ && _); cbn; trivial.
  destruct (_ && _); cbn; trivial.
  destruct (_ || _); cbn; trivial.
  destruct (_ && _); cbn; trivial.
  destruct (existsb processed_type cats); reflexivity.
Qed.

(** Claim C1: for every profile that has the sensitivity "lactose" and the
    gut_type high_inflammation, and every category set that contains both
    "dairy" and "fried", the conditions of rule 1 (lactose/dairy) and of rule
    2 (high_inflammation/fried) both hold, and the verdict is avoid by rule
    1, not by rule 2: the rules are tried in their listed order and the first
    one whose condition holds decides.  On a valid input (categories from the
    vocabulary, spice_tolerance in range) this verdict is what [classify]
    returns. *)
Theorem lactose_rule_fires_first
    (vocabulary : list string) (processed_type : string -> bool)
    (explanation_of : SpecEngine.Rule -> SpecEngine.Reaction -> string)
    (confidence_of : SpecEngine.Rule -> Z)
    (cats : list string) (p : SpecEngine.GutProfile) :
  In "lactose" (SpecEngine.sensitivities p) ->
  SpecEngine.gut_type p = "high_inflammation" ->
  In "dairy" cats ->
  In "fried" cats ->
  SpecEngine.matches SpecEngine.Rule1 cats p = true
  /\ SpecEngine.matches SpecEngine.Rule2 cats p = true
  /\ SpecEngine.fired
       (SpecEngine.apply_rules processed_type explanation_of
                               confidence_of cats p)
     = SpecEngine.Rule1
  /\ SpecEngine.fired
       (SpecEngine.apply_rules processed_type explanation_of
                               confidence_of cats p)
     <> SpecEngine.Rule2
  /\ SpecEngine.reaction
       (SpecEngine.apply_rules processed_type explanation_of
                               confidence_of cats p)
     = SpecEngine.avoid
  /\ find (fun r => SpecEngine.matches r cats p) SpecEngine.rule_order
     = Some (SpecEngine.fired
               (SpecEngine.apply_rules processed_type explanation_of
                                       confidence_of cats p))
  /\ ((forall c, In c cats -> In c vocabulary) ->
      1 <= SpecEngine.spice_tolerance p <= 3 ->
      SpecEngine.classify vocabulary processed_type explanation_of
                          confidence_of cats p
      = inr (SpecEngine.apply_rules processed_type explanation_of
                                    confidence_of cats p)).
Proof.
  intros Hl Hg Hd Hf.
  destruct (spec_order_puts_lactose_first processed_type explanation_of
              confidence_of cats p Hl Hd) as [Hfired Hreact].
  apply has_In in Hl, Hd, Hf.
  repeat split.
  - cbn. now rewrite Hl, Hd.
  - cbn. now rewrite Hg, Hf.
  - exact Hfired.
  - rewrite Hfired. discriminate.
  - exact Hreact.
  - apply apply_rules_first_match.
  - intros Hv Hs.
    apply valid_categories_spec in Hv.
    assert (Hp : SpecEngine.valid_profile p = true).
    { apply valid_profile_spec. split; [| exact Hs].
      rewrite Hg. cbn. auto. }
    unfold SpecEngine.classify, SpecEngine.violations.
    now rewrite Hv, Hp.
Qed.

(** The input of the specification's own test: categories dairy and fried,
    a profile with the lactose sensitivity and high inflammation. *)
Lemma lactose_rule_fires_first_witness :
  (In "lactose" (SpecEngine.sensitivities DemoMore.inflamed_lactose_profile)
   /\ SpecEngine.gut_type DemoMore.inflamed_lactose_profile
      = "high_inflammation"
   /\ In "dairy" ["dairy"; "fried"]
   /\ In "fried" ["dairy"; "fried"])
  /\ SpecEngine.fired
       (SpecEngine.apply_rules Demo.processed_type Demo.explanation_of
          Demo.confidence_of ["dairy"; "fried"]
          DemoMore.inflamed_lactose_profile)
     = SpecEngine.Rule1
  /\ SpecEngine.reaction
       (SpecEngine.apply_rules Demo.processed_type Demo.explanation_of
          Demo.confidence_of ["dairy"; "fried"]
          DemoMore.inflamed_lactose_profile)
     = SpecEngine.avoid.
Proof.
  split; [cbn; auto 6 |].
  destruct (lactose_rule_fires_first Demo.vocabulary Demo.processed_type
              Demo.explanation_of Demo.confidence_of ["dairy"; "fried"]
              DemoMore.inflamed_lactose_profile)
    as (_ & _ & Hfired & _ & Hreact & _); cbn; auto.
Defined.

(** Claim C2: [classify] fails with InvalidCategory for every input whose
    category set contains a category outside the vocabulary, fails with
    InvalidProfile for every profile whose gut_type or spice_tolerance is
    outside its range, and does not fail on a valid pair, where it answers by
    the rule list.  [classify] is a function of its two arguments and has no
    effect besides its result. *)
Theorem classify_failure_modes
    (vocabulary : list string) (processed_type : string -> bool)
    (explanation_of : SpecEngine.Rule -> SpecEngine.Reaction -> string)
    (confidence_of : SpecEngine.Rule -> Z)
    (cats : list string) (p : SpecEngine.GutProfile) :
  ((exists c, In c cats /\ ~ In c vocabulary) ->
   SpecEngine.fails_with SpecEngine.InvalidCategory
     (SpecEngine.classify vocabulary processed_type explanation_of
                          confidence_of cats p))
  /\ ((~ In (SpecEngine.gut_type p) SpecEngine.gut_types
       \/ ~ 1 <= SpecEngine.spice_tolerance p <= 3) ->
      SpecEngine.fails_with SpecEngine.InvalidProfile
        (SpecEngine.classify vocabulary processed_type explanation_of
                             confidence_of cats p))
  /\ ((forall c, In c cats -> In c vocabulary) ->
      In (SpecEngine.gut_type p) SpecEngine.gut_types ->
      1 <= SpecEngine.spice_tolerance p <= 3 ->
      SpecEngine.classify vocabulary processed_type explanation_of
                          confidence_of cats p
      = inr (SpecEngine.apply_rules processed_type explanation_of
                                    confidence_of cats p)).
Proof.
  unfold SpecEngine.classify, SpecEngine.violations.
  split; [| split].
  - intros (c & Hc & Hn).
    destruct (SpecEngine.valid_categories vocabulary cats) eqn:Ec.
    + exfalso. apply Hn.
      now apply (proj1 (valid_categories_spec vocabulary cats) Ec).
    + cbn. now left.
  - intros Hbad.
    destruct (SpecEngine.valid_profile p) eqn:Ep.
    + exfalso. apply valid_profile_spec in Ep. tauto.
    + destruct (SpecEngine.valid_categories vocabulary cats); cbn; auto.
  - intros Hv Hg Hs.
    apply valid_categories_spec in Hv.
    assert (Hp : SpecEngine.valid_profile p = true)
      by (now apply valid_profile_spec).
    now rewrite Hv, Hp.
Qed.

(** The three cases on the instance of the engine fixed above. *)
Lemma classify_failure_modes_witness :
  SpecEngine.fails_with SpecEngine.InvalidCategory
    (Demo.classify ["dairy"; "pizza"] Demo.default_profile)
  /\ SpecEngine.fails_with SpecEngine.InvalidProfile
       (Demo.classify ["dairy"] Demo.out_of_range_profile)
  /\ Demo.classify ["fermented"] Demo.default_profile
     = inr (SpecEngine.apply_rules Demo.processed_type Demo.explanation_of
              Demo.confidence_of ["fermented"] Demo.default_profile).
Proof.
  split; [| split].
  - apply (classify_failure_modes Demo.vocabulary Demo.processed_type
             Demo.explanation_of Demo.confidence_of
             ["dairy"; "pizza"] Demo.default_profile).
    exists "pizza". split; [cbn; auto |].
    cbn. intros H. repeat (destruct H as [H | H]; [discriminate |]). exact H.
  - apply (classify_failure_modes Demo.vocabulary Demo.processed_type
             Demo.explanation_of Demo.confidence_of
             ["dairy"] Demo.out_of_range_profile).
    right. cbn. lia.
  - apply (classify_failure_modes Demo.vocabulary Demo.processed_type
             Demo.explanation_of Demo.confidence_of
             ["fermented"] Demo.default_profile).
    + intros c [<- | []]. cbn. auto 10.
    + cbn. auto.
    + cbn. lia.
Defined.

(** ** The analyze handlers *)


Lemma fallback_with_metadata_shaped (timestamp : string) (now : Z)
    (fs : list (string * json)) :
  AnalyzeFood.fallbackAnalysis timestamp = JObj fs ->
  analysis_shaped (JObj (with_metadata now fs))
  /\ get "confidenceScore" (JObj (with_metadata now fs)) = None
  /\ get "reaction" (JObj (with_metadata now fs)) = Some (JStr "caution")
  /\ get "confidence" (JObj (with_metadata now fs)) = Some (num 75)
  /\ get "recognitionMethod" (JObj (with_metadata now fs))
     = Some (JStr "gemini_ai_fallback").
Proof.
  intros E. injection E as <-. cbv. repeat split.
Qed.




(** A failure of the call to the model is not recovered by a fallback: the
    run ends in the outer catch with HTTP 500 and the marker "error". *)
Lemma upstream_failure_is_not_recovered `{rt : Runtime} (env : Env)
    (req : Request) (message : string) :
  contacted_model (AnalyzeFood.handler env req) = true ->
  upstream env = UpstreamThrows message ->
  status_of (AnalyzeFood.handler env req) = Some 500
  /\ field_of "recognitionMethod" (AnalyzeFood.handler env req)
     = Some (JStr "error").
Proof.
  intros Hc Hu.
  destruct (handler_contacted_inv env req Hc)
    as (Hm & Hk & b & s & Hb & Hi & Hne).
  apply String.eqb_neq in Hne.
  unfold_run. rewrite Hm, Hk, Hb. cbn.
  destruct b; cbn in *; try discriminate.
  rewrite Hi. cbn. rewrite Hne. cbn.
  destruct (String.prefix "data:image/" s); cbn; rewrite Hu; cbn; now split.
Qed.




(** Claim C5: two runs on the same request give the same reaction,
    explanation and confidence, whatever the clock reads.  For the simple
    handler this holds across any two deployments, and the three fields are
    the constants of its one result (confidence 85).  For the Gemini handler
    it holds across deployments that agree on the API key and on the reply of
    the model, and the confidence of its fallback is the constant 75. *)
Theorem verdict_fields_deterministic `{rt : Runtime} (env1 env2 : Env)
    (req : Request) (k : string) :
  In k ["reaction"; "explanation"; "confidence"] ->
  field_of k (AnalyzeFoodSimple.handler env1 req)
  = field_of k (AnalyzeFoodSimple.handler env2 req)
  /\ (status_of (AnalyzeFoodSimple.handler env1 req) = Some 200 ->
      method req = "POST" ->
      field_of "reaction" (AnalyzeFoodSimple.handler env1 req)
      = Some (JStr "caution")
      /\ field_of "confidence" (AnalyzeFoodSimple.handler env1 req)
         = Some (num 85))
  /\ (GEMINI_API_KEY env1 = GEMINI_API_KEY env2 ->
      upstream env1 = upstream env2 ->
      field_of k (AnalyzeFood.handler env1 req)
      = field_of k (AnalyzeFood.handler env2 req))
  /\ (forall text,
        contacted_model (AnalyzeFood.handler env1 req) = true ->
        upstream env1 = UpstreamText text ->
        JSON_parse (clean_response text) = None ->
        field_of "reaction" (AnalyzeFood.handler env1 req)
        = Some (JStr "caution")
        /\ field_of "confidence" (AnalyzeFood.handler env1 req)
           = Some (num 75)).
Proof.
  intros Hin. split; [| split; [| split]].
  - unfold_run.
    destruct (String.eqb (method req) "OPTIONS"); cbn; trivial.
    destruct (String.eqb (method req) "POST"); cbn; trivial.
    destruct (body req) as [[| | | | |] |]; cbn; trivial.
    all: try (destruct Hin as [<- | [<- | [<- | []]]]; reflexivity).
    destruct (truthy_opt (assoc "image" fields)); cbn; trivial.
    destruct Hin as [<- | [<- | [<- | []]]]; reflexivity.
  - intros Hs Hm.
    destruct (handler_simple_post env1 req Hm) as [Hr _].
    unfold status_of, field_of in *. rewrite Hr in *.
    destruct (body req) as [[| | | | |] |]; cbn in *; try discriminate.
    destruct (truthy_opt _); cbn in *; try discriminate. now split.
  - intros Hkey Hup.
    exact (handler_field_clock_free env1 env2 req k Hkey Hup Hin).
  - intros text Hc Hu Hp.
    destruct (handler_contacted_inv env1 req Hc)
      as (Hm & Hk & b & s & Hb & Hi & Hne).
    destruct (handler_post_reply env1 req b s text Hm Hk Hb Hi Hne Hu)
      as [Hr _].
    rewrite Hp in Hr. destruct Hr as (fs & Hf & Hr).
    destruct (fallback_with_metadata_shaped _ (clock env1 2) fs Hf)
      as (_ & _ & Hreact & Hconf & _).
    unfold field_of, body_field. rewrite Hr. now split.
Qed.

(** Two runs of the simple handler almost a day apart: the same reaction,
    different timestamps. *)
Lemma verdict_fields_deterministic_witness :
  In "reaction" ["reaction"; "explanation"; "confidence"]
  /\ field_of "reaction"
       (Demo.run_simple (Demo.env_with None 5000 (UpstreamText ""))
                        (Demo.post Demo.with_image))
     = field_of "reaction"
         (Demo.run_simple (Demo.env_with None 86399000 (UpstreamText ""))
                          (Demo.post Demo.with_image))
  /\ field_of "timestamp"
       (Demo.run_simple (Demo.env_with None 5000 (UpstreamText ""))
                        (Demo.post Demo.with_image))
     <> field_of "timestamp"
          (Demo.run_simple (Demo.env_with None 86399000 (UpstreamText ""))
                           (Demo.post Demo.with_image)).
Proof.
  split; [cbn; auto |]. split.
  - exact (proj1 (@verdict_fields_deterministic Demo.runtime
                    (Demo.env_with None 5000 (UpstreamText ""))
                    (Demo.env_with None 86399000 (UpstreamText ""))
                    (Demo.post Demo.with_image) "reaction"
                    (or_introl eq_refl))).
  - discriminate.
Defined.

(** Claim C6, as the specification states it, fails: a POST whose body
    supplies food_name and no image is answered 400 by both handlers, and no
    request of that kind is answered with an analysis. *)
Lemma food_name_alone_is_rejected :
  supplies_food_name (Demo.post Demo.name_only)
  /\ lacks_image (Demo.post Demo.name_only)
  /\ status_of (Demo.run_simple Demo.offline (Demo.post Demo.name_only))
     = Some 400
  /\ status_of (Demo.run_gemini (Demo.online "") (Demo.post Demo.name_only))
     = Some 400
  /\ (forall (rt : Runtime) (env : Env) (req : Request),
        method req = "POST" ->
        supplies_food_name req ->
        lacks_image req ->
        status_of (AnalyzeFoodSimple.handler env req) <> Some 200
        /\ status_of (AnalyzeFood.handler env req) <> Some 200).
Proof.
  split; [| split; [| split; [| split]]].
  - exists Demo.name_only, "idli". now split.
  - exists Demo.name_only. repeat split. discriminate.
  - reflexivity.
  - reflexivity.
  - intros rt env req Hm _ Hl. split.
    + destruct (handler_simple_post env req Hm) as [Hr _].
      destruct Hl as (b & Hb & Hn & Hi).
      unfold status_of. rewrite Hr, Hb.
      destruct b; cbn in *; try discriminate; try now elim Hn.
      rewrite Hi. discriminate.
    + destruct (env_truthy (GEMINI_API_KEY env)) eqn:Ek.
      * destruct (handler_post_no_image env req Hm Ek Hl) as [Hr _].
        unfold status_of. rewrite Hr. discriminate.
      * destruct (handler_post_no_key env req Hm Ek) as [Hr _].
        unfold status_of. rewrite Hr. discriminate.
Qed.

(** Claim C6, amended: the image field is required and food_name is not.
    Every POST whose body supplies food_name but no image, and more generally
    every POST whose body is present, is not null and has no truthy image, is
    rejected as a bad request: by the simple handler with HTTP 400 "Image
    required", by the Gemini handler with HTTP 400 "Image data is required"
    when an API key is configured and with HTTP 500 "API key not configured"
    when none is, and the model is not called.  A POST with no body or with
    the body null is answered 500 by both handlers, again without a call to
    the model.  A POST with a truthy image is answered 200 by the simple
    handler whatever else its body holds.  Every POST is of one of these
    three kinds. *)
Theorem image_is_required `{rt : Runtime} (env : Env) (req : Request) :
  method req = "POST" ->
  (lacks_image req ->
   response_of (AnalyzeFoodSimple.handler env req)
   = Some {| status := 400;
             payload := Some (JObj [("error", JStr "Image required")]) |}
   /\ response_of (AnalyzeFood.handler env req)
      = Some (if env_truthy (GEMINI_API_KEY env)
              then {| status := 400;
                      payload := Some (JObj [
                        ("error", JStr "Bad request");
                        ("message", JStr "Image data is required")]) |}
              else {| status := 500;
                      payload := Some (JObj [
                        ("error", JStr "Configuration error");
                        ("message", JStr "API key not configured")]) |})
   /\ contacted_model (AnalyzeFood.handler env req) = false)
  /\ (no_body req ->
      status_of (AnalyzeFoodSimple.handler env req) = Some 500
      /\ field_of "error" (AnalyzeFoodSimple.handler env req)
         = Some (JStr "Analysis failed")
      /\ status_of (AnalyzeFood.handler env req) = Some 500
      /\ field_of "error" (AnalyzeFood.handler env req)
         = Some (JStr (if env_truthy (GEMINI_API_KEY env)
                       then "Analysis failed" else "Configuration error"))
      /\ contacted_model (AnalyzeFood.handler env req) = false)
  /\ (has_image req ->
      status_of (AnalyzeFoodSimple.handler env req) = Some 200)
  /\ (lacks_image req \/ no_body req \/ has_image req)
  /\ (supplies_food_name req -> ~ has_image req -> lacks_image req).
Proof.
  intros Hm.
  assert (Hkinds : lacks_image req \/ no_body req \/ has_image req).
  { unfold lacks_image, no_body, has_image.
    destruct (body req) as [b |] eqn:Eb; [| right; left; now left].
    destruct (truthy_opt (get "image" b)) eqn:Et.
    - right; right. now exists b.
    - destruct b.
      1: right; left; now right.
      all: left; eexists; repeat split; trivial; discriminate. }
  split; [| split; [| split; [| split]]].
  - intros Hl. split; [| split].
    + destruct (handler_simple_post env req Hm) as [Hr _].
      destruct Hl as (b & Hb & Hn & Hi).
      rewrite Hr, Hb.
      destruct b; cbn in *; try reflexivity; try now elim Hn.
      now rewrite Hi.
    + destruct (env_truthy (GEMINI_API_KEY env)) eqn:Ek.
      * now destruct (handler_post_no_image env req Hm Ek Hl) as [Hr _].
      * now destruct (handler_post_no_key env req Hm Ek) as [Hr _].
    + destruct (contacted_model (AnalyzeFood.handler env req)) eqn:Hc; trivial.
      destruct (handler_contacted_inv env req Hc)
        as (_ & _ & b & s & Hb & Hi & Hne).
      destruct Hl as (b' & Hb' & _ & Hi').
      rewrite Hb in Hb'. injection Hb' as <-.
      rewrite Hi in Hi'. cbn in Hi'.
      apply String.eqb_neq in Hne. rewrite Hne in Hi'. discriminate.
  - intros Hb. unfold_run. rewrite Hm. cbn.
    destruct Hb as [-> | ->]; cbn;
      destruct (env_truthy (GEMINI_API_KEY env)); cbn; now repeat split.
  - intros (b & Hb & Hi).
    destruct (handler_simple_post env req Hm) as [Hr _].
    unfold status_of. rewrite Hr, Hb.
    destruct b; cbn in *; try discriminate. now rewrite Hi.
  - exact Hkinds.
  - intros (b & name & Hb & Hn) Hno.
    destruct Hkinds as [Hl | [[Hnone | Hnull] | Hh]]; trivial.
    + rewrite Hb in Hnone. discriminate.
    + rewrite Hb in Hnull. injection Hnull as ->. discriminate.
    + now elim Hno.
Qed.

(** A body with food_name alone is rejected by the simple handler. *)
Lemma image_is_required_witness :
  (method (Demo.post Demo.name_only) = "POST"
   /\ lacks_image (Demo.post Demo.name_only))
  /\ response_of (Demo.run_simple Demo.offline (Demo.post Demo.name_only))
     = Some {| status := 400;
               payload := Some (JObj [("error", JStr "Image required")]) |}.
Proof.
  assert (Hl : lacks_image (Demo.post Demo.name_only)).
  { exists Demo.name_only. repeat split. discriminate. }
  split; [split; [reflexivity | exact Hl] |].
  apply (@image_is_required Demo.runtime Demo.offline
           (Demo.post Demo.name_only) eq_refl).
  exact Hl.
Defined.

(** Claim C7, as the specification states it, fails: the Gemini handler
    returns the confidence of a reply that parses as it is, be it above 100
    or a fraction. *)
Lemma upstream_confidence_unchecked :
  status_of (Demo.run_gemini (Demo.online Demo.reply_overconfident)
               (Demo.post Demo.with_image)) = Some 200
  /\ field_of "confidence"
       (Demo.run_gemini (Demo.online Demo.reply_overconfident)
          (Demo.post Demo.with_image)) = Some (num 150)
  /\ integer_between 0 100 (Some (num 150)) = false
  /\ status_of (Demo.run_gemini (Demo.online Demo.reply_fraction)
                  (Demo.post Demo.with_image)) = Some 200
  /\ field_of "confidence"
       (Demo.run_gemini (Demo.online Demo.reply_fraction)
          (Demo.post Demo.with_image)) = Some (JNum (85 # 100))
  /\ integer_between 0 100 (Some (JNum (85 # 100))) = false.
Proof. repeat split. Qed.

(** Claim C7, amended: in every result the handlers build themselves the
    confidence is an integer between 0 and 100: 85 in the result of the
    simple handler and 75 in the fallback of the Gemini handler.  When the
    upstream reply parses, the answer carries the confidence of the reply
    unchanged and unchecked. *)
Theorem confidence_of_local_results `{rt : Runtime} (env : Env) (req : Request)
    (r : Response) :
  method req = "POST" ->
  status r = 200 ->
  (response_of (AnalyzeFoodSimple.handler env req) = Some r ->
   body_field "confidence" r = Some (num 85)
   /\ integer_between 0 100 (body_field "confidence" r) = true)
  /\ (response_of (AnalyzeFood.handler env req) = Some r ->
      exists text,
        upstream env = UpstreamText text
        /\ match JSON_parse (clean_response text) with
           | None =>
               body_field "confidence" r = Some (num 75)
               /\ integer_between 0 100 (body_field "confidence" r) = true
           | Some reply =>
               body_field "confidence" r = get "confidence" reply
           end).
Proof.
  intros Hm Hs. split; intros H.
  - unfold body_field.
    rewrite (handler_simple_ok_body env req r Hm H Hs). now split.
  - destruct (handler_ok_body env req r Hm H Hs) as (text & Hu & Hb).
    exists text. split; trivial.
    destruct (JSON_parse (clean_response text)) as [reply |].
    + apply Hb. cbn. intuition discriminate.
    + destruct Hb as (fs & Hf & Hp).
      destruct (fallback_with_metadata_shaped _ (clock env 2) fs Hf)
        as (_ & _ & _ & Hconf & _).
      unfold body_field. rewrite Hp, Hconf. now split.
Qed.

(** The confidence of the simple handler's answer. *)
Lemma confidence_of_local_results_witness :
  (method (Demo.post Demo.with_image) = "POST"
   /\ status Demo.mock_response = 200
   /\ response_of (Demo.run_simple Demo.offline (Demo.post Demo.with_image))
      = Some Demo.mock_response)
  /\ body_field "confidence" Demo.mock_response = Some (num 85)
  /\ integer_between 0 100 (body_field "confidence" Demo.mock_response) = true.
Proof.
  split; [repeat split |].
  exact (proj1 (@confidence_of_local_results Demo.runtime Demo.offline
                  (Demo.post Demo.with_image) Demo.mock_response
                  eq_refl eq_refl) eq_refl).
Defined.

(** Claim C8, as the specification states it, fails: the Gemini handler
    returns the reaction of a reply that parses as it is, also when it is
    none of suitable, caution, avoid and excellent. *)
Lemma upstream_reaction_unchecked :
  status_of (Demo.run_gemini (Demo.online Demo.reply_other_reaction)
               (Demo.post Demo.with_image)) = Some 200
  /\ field_of "reaction"
       (Demo.run_gemini (Demo.online Demo.reply_other_reaction)
          (Demo.post Demo.with_image)) = Some (JStr "moderate")
  /\ is_reaction_word (Some (JStr "moderate")) = false.
Proof. repeat split. Qed.

(** Claim C8, amended: every result the handlers build themselves (the
    result of the simple handler, the fallback of the Gemini handler) has
    the reaction "caution", one of suitable, caution, avoid.  When the
    upstream reply parses, the answer carries the reaction of the reply
    unchanged and unchecked: it is one of excellent, suitable, caution, avoid
    exactly when the reply's is. *)
Theorem reaction_of_results `{rt : Runtime} (env : Env) (req : Request)
    (r : Response) :
  method req = "POST" ->
  status r = 200 ->
  (response_of (AnalyzeFoodSimple.handler env req) = Some r ->
   body_field "reaction" r = Some (JStr "caution"))
  /\ (response_of (AnalyzeFood.handler env req) = Some r ->
      exists text,
        upstream env = UpstreamText text
        /\ match JSON_parse (clean_response text) with
           | None => body_field "reaction" r = Some (JStr "caution")
           | Some reply =>
               body_field "reaction" r = get "reaction" reply
               /\ is_reaction_word (body_field "reaction" r)
                  = is_reaction_word (get "reaction" reply)
           end)
  /\ In "caution" ["suitable"; "caution"; "avoid"].
Proof.
  intros Hm Hs. split; [| split]; [intros H | intros H | cbn; auto].
  - unfold body_field.
    now rewrite (handler_simple_ok_body env req r Hm H Hs).
  - destruct (handler_ok_body env req r Hm H Hs) as (text & Hu & Hb).
    exists text. split; trivial.
    destruct (JSON_parse (clean_response text)) as [reply |].
    + assert (E : body_field "reaction" r = get "reaction" reply)
        by (apply Hb; cbn; intuition discriminate).
      now rewrite E.
    + destruct Hb as (fs & Hf & Hp).
      destruct (fallback_with_metadata_shaped _ (clock env 2) fs Hf)
        as (_ & _ & Hreact & _).
      unfold body_field. now rewrite Hp, Hreact.
Qed.

(** The reaction of the simple handler's answer. *)
Lemma reaction_of_results_witness :
  (method (Demo.post Demo.with_image) = "POST"
   /\ status Demo.mock_response = 200
   /\ response_of (Demo.run_simple Demo.offline (Demo.post Demo.with_image))
      = Some Demo.mock_response)
  /\ body_field "reaction" Demo.mock_response = Some (JStr "caution").
Proof.
  split; [repeat split |].
  exact (proj1 (@reaction_of_results Demo.runtime Demo.offline
                  (Demo.post Demo.with_image) Demo.mock_response
                  eq_refl eq_refl) eq_refl).
Defined.

(** ** The API key and the method *)

Lemma health_body `{rt : Runtime} (env : Env) (req : Request) :
  method req <> "OPTIONS" ->
  field_of "gemini" (Health.handler env req)
  = Some (JStr (if env_truthy (GEMINI_API_KEY env)
                then "configured" else "not_configured")).
Proof.
  intros Hm. apply String.eqb_neq in Hm.
  unfold_run. rewrite Hm. reflexivity.
Qed.

(** Claim C9, as the specification states it, fails: with GEMINI_API_KEY
    present and empty the health endpoint reports "not_configured", and to an
    OPTIONS request it reports nothing. *)
Lemma empty_key_is_not_configured :
  GEMINI_API_KEY (Demo.env_with (Some "") 5000 (UpstreamText ""))
  = Some EmptyString
  /\ field_of "gemini"
       (Demo.run_health (Demo.env_with (Some "") 5000 (UpstreamText ""))
                        Demo.get_request)
     = Some (JStr "not_configured")
  /\ response_of (Demo.run_health (Demo.online "") Demo.options_request)
     = Some {| status := 200; payload := None |}.
Proof. repeat split. Qed.

(** Claim C9, amended: if GEMINI_API_KEY is absent or empty, the Gemini
    handler answers every POST with HTTP 500 and the message "API key not
    configured" without calling the model, and the health endpoint reports
    gemini as "not_configured" to every request that is not an OPTIONS
    preflight; if the variable is present and not empty, the health endpoint
    reports "configured" to every such request. *)
Theorem api_key_guard `{rt : Runtime} (env : Env) (req : Request) :
  ((GEMINI_API_KEY env = None \/ GEMINI_API_KEY env = Some EmptyString) ->
   (method req = "POST" ->
    response_of (AnalyzeFood.handler env req)
    = Some {| status := 500;
              payload := Some (JObj [
                ("error", JStr "Configuration error");
                ("message", JStr "API key not configured")]) |}
    /\ contacted_model (AnalyzeFood.handler env req) = false)
   /\ (method req <> "OPTIONS" ->
       field_of "gemini" (Health.handler env req) = Some (JStr "not_configured")))
  /\ (forall k, GEMINI_API_KEY env = Some k -> k <> EmptyString ->
      method req <> "OPTIONS" ->
      field_of "gemini" (Health.handler env req) = Some (JStr "configured")).
Proof.
  split.
  - intros Habsent.
    assert (Hk : env_truthy (GEMINI_API_KEY env) = false)
      by (destruct Habsent as [-> | ->]; reflexivity).
    split.
    + intros Hm. destruct (handler_post_no_key env req Hm Hk) as [Hr Ht].
      split; trivial. unfold contacted_model. now rewrite Ht.
    + intros Hm. rewrite (health_body env req Hm). now rewrite Hk.
  - intros k Hk Hne Hm. rewrite (health_body env req Hm), Hk. cbn.
    apply String.eqb_neq in Hne. now rewrite Hne.
Qed.

(** A POST to a deployment without the key. *)
Lemma api_key_guard_witness :
  (GEMINI_API_KEY Demo.offline = None
   /\ method (Demo.post Demo.with_image) = "POST")
  /\ response_of (Demo.run_gemini Demo.offline (Demo.post Demo.with_image))
     = Some {| status := 500;
               payload := Some (JObj [
                 ("error", JStr "Configuration error");
                 ("message", JStr "API key not configured")]) |}
  /\ contacted_model (Demo.run_gemini Demo.offline (Demo.post Demo.with_image))
     = false.
Proof.
  split; [split; reflexivity |].
  exact (proj1 (proj1 (@api_key_guard Demo.runtime Demo.offline
                         (Demo.post Demo.with_image))
                  (or_introl eq_refl)) eq_refl).
Defined.

(** Claim C10: for every request, if the method is OPTIONS both analyze
    handlers answer HTTP 200 with an empty body; if the method is neither
    OPTIONS nor POST they answer HTTP 405 with an error body, and in neither
    case is the model called or an analysis built. *)
Theorem method_gating `{rt : Runtime} (env : Env) (req : Request) :
  (method req = "OPTIONS" ->
   response_of (AnalyzeFood.handler env req) = Some {| status := 200; payload := None |}
   /\ response_of (AnalyzeFoodSimple.handler env req)
      = Some {| status := 200; payload := None |}
   /\ trace_of (AnalyzeFood.handler env req) = []
   /\ trace_of (AnalyzeFoodSimple.handler env req) = [])
  /\ (method req <> "OPTIONS" -> method req <> "POST" ->
      response_of (AnalyzeFood.handler env req)
      = Some {| status := 405;
                payload := Some (JObj [
                  ("error", JStr "Method not allowed");
                  ("message", JStr "Only POST requests are supported")]) |}
      /\ response_of (AnalyzeFoodSimple.handler env req)
         = Some {| status := 405;
                   payload := Some (JObj [
                     ("error", JStr "Method not allowed")]) |}
      /\ contacted_model (AnalyzeFood.handler env req) = false
      /\ contacted_model (AnalyzeFoodSimple.handler env req) = false
      /\ trace_of (AnalyzeFood.handler env req) = []
      /\ trace_of (AnalyzeFoodSimple.handler env req) = []
      /\ field_of "reaction" (AnalyzeFood.handler env req) = None
      /\ field_of "reaction" (AnalyzeFoodSimple.handler env req) = None).
Proof.
  split.
  - intros Hm. unfold_run. rewrite Hm. cbn. now repeat split.
  - intros Ho Hp. apply String.eqb_neq in Ho, Hp.
    unfold_run. rewrite Ho, Hp. cbn. now repeat split.
Qed.

(** An OPTIONS and a GET request against both analyze handlers. *)
Lemma method_gating_witness :
  (method Demo.options_request = "OPTIONS"
   /\ method Demo.get_request <> "OPTIONS"
   /\ method Demo.get_request <> "POST")
  /\ response_of (Demo.run_gemini (Demo.online "") Demo.options_request)
     = Some {| status := 200; payload := None |}
  /\ status_of (Demo.run_gemini (Demo.online "") Demo.get_request) = Some 405
  /\ status_of (Demo.run_simple Demo.offline Demo.get_request) = Some 405.
Proof.
  split; [repeat split; discriminate |].
  split; [| split].
  - exact (proj1 (proj1 (@method_gating Demo.runtime (Demo.online "")
                           Demo.options_request) eq_refl)).
  - unfold status_of, Demo.run_gemini.
    rewrite (proj1 (proj2 (@method_gating Demo.runtime (Demo.online "")
                             Demo.get_request)
                      ltac:(discriminate) ltac:(discriminate))).
    reflexivity.
  - unfold status_of, Demo.run_simple.
    rewrite (proj1 (proj2 (proj2 (@method_gating Demo.runtime Demo.offline
                                    Demo.get_request)
                             ltac:(discriminate) ltac:(discriminate)))).
    reflexivity.
Defined.

(** ** Further properties of the handlers *)

Ltac unfold_more :=
  unfold model_calls, sent_image, headers_of, TestEndpoint.handler in *;
  unfold_run.

(** One case split on what the handlers branch on, outermost test first. *)
Ltac path_step :=
  match goal with
  | |- context [String.eqb (method ?r) ?m] =>
      destruct (String.eqb (method r) m) eqn:?; cbn
  | |- context [env_truthy (GEMINI_API_KEY ?e)] =>
      destruct (env_truthy (GEMINI_API_KEY e)) eqn:?; cbn
  | |- context [body ?r] => destruct (body r) as [[] |] eqn:?; cbn
  | |- context [assoc "image" ?fs] =>
      destruct (assoc "image" fs) as [[] |] eqn:?; cbn
  | |- context [negb (Qeq_bool ?q 0)] =>
      destruct (negb (Qeq_bool q 0)) eqn:?; cbn
  | |- context [String.eqb ?s EmptyString] =>
      destruct (String.eqb s EmptyString) eqn:?; cbn
  | |- context [String.prefix "data:image/" ?s] =>
      destruct (String.prefix "data:image/" s) eqn:?; cbn
  | |- context [upstream ?e] => destruct (upstream e) eqn:?; cbn
  | |- context [JSON_parse ?t] =>
      destruct (JSON_parse t) as [[] |] eqn:?; cbn
  | |- context [if negb ?b then _ else _] => is_var b; destruct b; cbn
  | |- context [if ?b then _ else _] => is_var b; destruct b; cbn
  end.

Ltac all_paths := unfold_more; cbn; repeat path_step.

(** Extra X1: when an analyze handler answers, and when it does not.  The
    simple handler answers every request.  Whenever the Gemini handler
    answers, the status is 200, 400, 405 or 500; it leaves a request without
    an answer exactly when it has called the model and the call never settles
    (line 127 awaits it without a timeout) or rejects with [null] or
    [undefined] (reading [error.message] in the catch clause then throws). *)
Theorem analyze_handlers_always_answer `{rt : Runtime} (env : Env)
    (req : Request) :
  (exists r, response_of (AnalyzeFoodSimple.handler env req) = Some r
             /\ In (status r) statuses)
  /\ (forall r, response_of (AnalyzeFood.handler env req) = Some r ->
                In (status r) statuses)
  /\ (response_of (AnalyzeFood.handler env req) = None
      <-> contacted_model (AnalyzeFood.handler env req) = true
          /\ (upstream env = UpstreamNeverSettles
              \/ exists value, upstream env = UpstreamRejectsWith value)).
Proof.
  split; [| split].
  - all_paths; eexists; (split; [reflexivity | cbn; auto 6]).
  - intros r. all_paths; intros H; try discriminate;
      injection H as <-; cbn; auto 6.
  - split.
    + all_paths; intros H; try discriminate; (split; [reflexivity | eauto]).
    + all_paths; intros [Hc [Hu | [v Hu]]]; try discriminate; reflexivity.
Qed.

Lemma analyze_handlers_always_answer_witness :
  (contacted_model (Demo.run_gemini DemoMore.hanging
                      (Demo.post Demo.with_image)) = true
   /\ upstream DemoMore.hanging = UpstreamNeverSettles)
  /\ response_of (Demo.run_gemini DemoMore.hanging
                    (Demo.post Demo.with_image)) = None.
Proof.
  split; [split; reflexivity |].
  apply (proj2 (proj2 (proj2 (@analyze_handlers_always_answer Demo.runtime
                                DemoMore.hanging
                                (Demo.post Demo.with_image))))).
  split; [reflexivity | now left].
Defined.

Lemma status_of_inv (m : M Response) (code : Z) :
  status_of m = Some code ->
  exists r, response_of m = Some r /\ status r = code.
Proof.
  unfold status_of. destruct (response_of m) as [r |]; cbn; [| discriminate].
  intros H. injection H as <-. now exists r.
Qed.

(** Extra X2: the simple handler answers 200 exactly to a preflight and to a
    POST whose body has a truthy image, of whatever type the image is. *)
Theorem simple_success_iff `{rt : Runtime} (env : Env) (req : Request) :
  status_of (AnalyzeFoodSimple.handler env req) = Some 200
  <-> method req = "OPTIONS" \/ (method req = "POST" /\ has_image req).
Proof.
  split.
  - destruct (String.eqb (method req) "OPTIONS") eqn:Eo.
    { intros _. left. now apply String.eqb_eq. }
    destruct (String.eqb (method req) "POST") eqn:Ep.
    + apply String.eqb_eq in Ep. intros H. right. split; trivial.
      destruct (handler_simple_post env req Ep) as [Hr _].
      unfold status_of in H. rewrite Hr in H.
      destruct (body req) as [b |] eqn:Eb; cbn in H; [| discriminate].
      exists b. split; trivial.
      destruct b; cbn in *; try discriminate.
      destruct (truthy_opt (assoc "image" fields)); cbn in *;
        [reflexivity | discriminate].
    + unfold_run. rewrite Eo, Ep. cbn. discriminate.
  - intros [Ho | (Hp & b & Hb & Hi)].
    + unfold_run. rewrite Ho. reflexivity.
    + destruct (handler_simple_post env req Hp) as [Hr _].
      unfold status_of. rewrite Hr, Hb.
      destruct b; cbn in *; try discriminate. now rewrite Hi.
Qed.

(** Extra X3: the Gemini handler answers 200 exactly to a preflight and to a
    POST for which an API key is configured, the image is a non-empty string,
    the model replies with a text, and the text either does not parse (the
    fallback is used) or parses to an object or an array. *)
Theorem gemini_success_iff `{rt : Runtime} (env : Env) (req : Request) :
  status_of (AnalyzeFood.handler env req) = Some 200
  <-> method req = "OPTIONS"
      \/ (method req = "POST"
          /\ env_truthy (GEMINI_API_KEY env) = true
          /\ exists s text,
               image_string req s
               /\ upstream env = UpstreamText text
               /\ usable_reply (JSON_parse (clean_response text)) = true).
Proof.
  split.
  - destruct (String.eqb (method req) "OPTIONS") eqn:Eo.
    { intros _. left. now apply String.eqb_eq. }
    destruct (String.eqb (method req) "POST") eqn:Ep.
    + apply String.eqb_eq in Ep. intros H. right. split; trivial.
      destruct (status_of_inv _ _ H) as (r & Hr & Hs).
      destruct (handler_post_ok_inv env req r Ep Hr Hs)
        as (Hk & b & s & text & Hb & Hi & Hne & Hu).
      split; trivial. exists s, text.
      split; [now exists b |]. split; trivial.
      destruct (handler_post_reply env req b s text Ep Hk Hb Hi Hne Hu)
        as [Hreply _].
      destruct (JSON_parse (clean_response text)) as [[| | | | |] |];
        cbn; trivial.
      all: destruct Hreply as (err & ts & Hreply);
        rewrite Hreply in Hr; injection Hr as <-; discriminate.
    + unfold_run. rewrite Eo, Ep. cbn. discriminate.
  - intros [Ho | (Hp & Hk & s & text & (b & Hb & Hi & Hne) & Hu & Hus)].
    + unfold_run. rewrite Ho. reflexivity.
    + destruct (handler_post_reply env req b s text Hp Hk Hb Hi Hne Hu)
        as [Hreply _].
      unfold status_of.
      destruct (JSON_parse (clean_response text)) as [[| | | | |] |];
        cbn in Hus; try discriminate.
      * now rewrite Hreply.
      * now rewrite Hreply.
      * destruct Hreply as (fs & _ & ->). reflexivity.
Qed.

Lemma gemini_success_iff_witness :
  status_of (Demo.run_gemini (Demo.online Demo.reply_as_prompted)
               (Demo.post Demo.with_image)) = Some 200.
Proof.
  apply (proj2 (@gemini_success_iff Demo.runtime
                  (Demo.online Demo.reply_as_prompted)
                  (Demo.post Demo.with_image))).
  right. split; [reflexivity |]. split; [reflexivity |].
  exists "data:image/jpeg;base64,AAAA", Demo.reply_as_prompted.
  split; [| split; reflexivity].
  exists Demo.with_image. repeat split. discriminate.
Defined.

(** Extra X4: the Gemini handler calls the model exactly when the request is
    a POST, an API key is configured and the image is a non-empty string; it
    calls it at most once per request, also when the call or the parsing
    fails, and the simple handler never calls it. *)
Theorem model_called_iff `{rt : Runtime} (env : Env) (req : Request) :
  (contacted_model (AnalyzeFood.handler env req) = true
   <-> method req = "POST"
       /\ env_truthy (GEMINI_API_KEY env) = true
       /\ exists s, image_string req s)
  /\ (model_calls (AnalyzeFood.handler env req) <= 1)%nat
  /\ model_calls (AnalyzeFoodSimple.handler env req) = 0%nat.
Proof.
  split; [split |].
  - intros H.
    destruct (handler_contacted_inv env req H) as (Hm & Hk & b & s & Hb & Hi & Hs).
    repeat split; trivial. exists s, b. now repeat split.
  - intros (Hm & Hk & s & b & Hb & Hi & Hs).
    apply String.eqb_neq in Hs.
    unfold_run. rewrite Hm, Hk, Hb. cbn.
    destruct b; cbn in Hi; try discriminate.
    cbn. rewrite Hi. cbn. rewrite Hs. cbn.
    repeat path_step; reflexivity.
  - split.
    + all_paths; lia.
    + all_paths; reflexivity.
Qed.

Lemma model_called_iff_witness :
  contacted_model (Demo.run_gemini (Demo.online "not json")
                     (Demo.post Demo.with_image)) = true.
Proof.
  apply (proj2 (proj1 (@model_called_iff Demo.runtime (Demo.online "not json")
                         (Demo.post Demo.with_image)))).
  split; [reflexivity |]. split; [reflexivity |].
  exists "data:image/jpeg;base64,AAAA", Demo.with_image.
  repeat split. discriminate.
Defined.



(** Extra X6: a POST without a body, or with the body [null], is no bad
    request but a server error: destructuring [req.body] throws, with the
    engine's message for [undefined] in the first case and for [null] in the
    second.  The simple handler answers 500 with that message, and the Gemini
    handler with a configured key answers 500 with that message and the
    marker "error"; the model is not called. *)
Theorem post_without_body `{rt : Runtime} (env : Env) (req : Request)
    (value : nullish) :
  method req = "POST" ->
  body req = nullish_body value ->
  response_of (AnalyzeFoodSimple.handler env req)
  = Some {| status := 500;
            payload := Some (JObj [
              ("error", JStr "Analysis failed");
              ("message", JStr (type_error_message (Destructure value)));
              ("timestamp", JStr (toISOString (clock env 0)))]) |}
  /\ (env_truthy (GEMINI_API_KEY env) = true ->
      response_of (AnalyzeFood.handler env req)
      = Some {| status := 500;
                payload := Some (analysis_failed
                                   (type_error_message (Destructure value))
                                   (toISOString (clock env 0))) |}
      /\ model_calls (AnalyzeFood.handler env req) = 0%nat).
Proof.
  intros Hm Hb. unfold_more. rewrite Hm, Hb. cbn.
  destruct value; cbn; (split; [reflexivity |]);
    intros ->; cbn; now split.
Qed.

Lemma post_without_body_witness :
  (method DemoMore.null_post = "POST"
   /\ body DemoMore.null_post = nullish_body Null)
  /\ field_of "message" (Demo.run_simple Demo.offline DemoMore.null_post)
     = Some (JStr
         "Cannot destructure property 'image' of 'req.body' as it is null.")
  /\ field_of "message" (Demo.run_simple Demo.offline DemoMore.empty_post)
     = Some (JStr
         "Cannot destructure property 'image' of 'req.body' as it is undefined.").
Proof.
  split; [split; reflexivity |].
  unfold field_of, Demo.run_simple.
  rewrite (proj1 (@post_without_body Demo.runtime Demo.offline
                    DemoMore.null_post Null eq_refl eq_refl)).
  rewrite (proj1 (@post_without_body Demo.runtime Demo.offline
                    DemoMore.empty_post Undefined eq_refl eq_refl)).
  split; reflexivity.
Defined.



(** Extra X8: a reply that is valid JSON but no object is not used as an
    analysis.  An array is returned as it is with status 200 and none of the
    metadata; [null], a boolean, a number or a string makes the first
    metadata assignment throw, and the answer is 500 with the marker "error"
    although the model has replied. *)
Theorem reply_that_is_no_object `{rt : Runtime} (env : Env) (req : Request)
    (text : string) (v : json) :
  contacted_model (AnalyzeFood.handler env req) = true ->
  upstream env = UpstreamText text ->
  JSON_parse (clean_response text) = Some v ->
  match v with
  | JObj _ => status_of (AnalyzeFood.handler env req) = Some 200
  | JArr items =>
      response_of (AnalyzeFood.handler env req)
      = Some {| status := 200; payload := Some (JArr items) |}
  | JNull =>
      response_of (AnalyzeFood.handler env req)
      = Some {| status := 500;
                payload := Some (analysis_failed
                                   (type_error_message
                                      (SetPropertyOfNull "apiVersion"))
                                   (toISOString (clock env 1))) |}
  | primitive =>
      response_of (AnalyzeFood.handler env req)
      = Some {| status := 500;
                payload := Some (analysis_failed
                                   (type_error_message
                                      (CreatePropertyOnPrimitive "apiVersion"
                                                                 primitive))
                                   (toISOString (clock env 1))) |}
  end.
Proof.
  intros Hc Hu Hp.
  destruct (handler_contacted_inv env req Hc)
    as (Hm & Hk & b & s & Hb & Hi & Hne).
  apply String.eqb_neq in Hne.
  unfold_more. rewrite Hm, Hk, Hb. cbn.
  destruct b; cbn in Hi; try discriminate.
  cbn. rewrite Hi. cbn. rewrite Hne. cbn.
  destruct (String.prefix "data:image/" s); cbn; rewrite Hu; cbn;
    rewrite Hp; cbn; destruct v; reflexivity.
Qed.

Lemma reply_that_is_no_object_witness :
  (contacted_model (Demo.run_gemini (Demo.online "null")
                      (Demo.post Demo.with_image)) = true
   /\ upstream (Demo.online "null") = UpstreamText "null"
   /\ Demo.parse_reply "null" = Some JNull)
  /\ status_of (Demo.run_gemini (Demo.online "null")
                  (Demo.post Demo.with_image)) = Some 500.
Proof.
  split; [repeat split |].
  unfold status_of, Demo.run_gemini.
  rewrite (@reply_that_is_no_object Demo.runtime (Demo.online "null")
             (Demo.post Demo.with_image) "null" JNull
             eq_refl eq_refl eq_refl).
  reflexivity.
Defined.

(** Extra X9: on every object the Gemini handler returns, apiVersion is
    "1.0", model is "gemini-2.0-flash-exp" and processingTime is a clock
    reading taken after the reply, whatever the reply itself holds under
    these three names; and no field of the reply is dropped. *)
Theorem metadata_overrides_reply `{rt : Runtime} (env : Env) (req : Request)
    (text : string) (fs : list (string * json)) :
  contacted_model (AnalyzeFood.handler env req) = true ->
  upstream env = UpstreamText text ->
  JSON_parse (clean_response text) = Some (JObj fs) ->
  field_of "apiVersion" (AnalyzeFood.handler env req) = Some (JStr "1.0")
  /\ field_of "model" (AnalyzeFood.handler env req)
     = Some (JStr "gemini-2.0-flash-exp")
  /\ field_of "processingTime" (AnalyzeFood.handler env req)
     = Some (num (clock env 1))
  /\ (forall k, assoc k fs <> None ->
                field_of k (AnalyzeFood.handler env req) <> None).
Proof.
  intros Hc Hu Hp.
  destruct (handler_contacted_inv env req Hc)
    as (Hm & Hk & b & s & Hb & Hi & Hne).
  destruct (handler_post_reply env req b s text Hm Hk Hb Hi Hne Hu) as [Hr _].
  rewrite Hp in Hr.
  unfold field_of, body_field. rewrite Hr. cbn. unfold with_metadata.
  split; [| split; [| split]].
  - rewrite !assoc_set_other by discriminate. apply assoc_set_same.
  - rewrite assoc_set_other by discriminate. apply assoc_set_same.
  - apply assoc_set_same.
  - intros k Hin.
    destruct (String.eqb k "processingTime") eqn:E1;
      [apply String.eqb_eq in E1; subst k;
       rewrite assoc_set_same; discriminate |].
    apply String.eqb_neq in E1. rewrite (assoc_set_other _ _ _ _ E1).
    destruct (String.eqb k "model") eqn:E2;
      [apply String.eqb_eq in E2; subst k;
       rewrite assoc_set_same; discriminate |].
    apply String.eqb_neq in E2. rewrite (assoc_set_other _ _ _ _ E2).
    destruct (String.eqb k "apiVersion") eqn:E3;
      [apply String.eqb_eq in E3; subst k;
       rewrite assoc_set_same; discriminate |].
    apply String.eqb_neq in E3. now rewrite (assoc_set_other _ _ _ _ E3).
Qed.

Lemma metadata_overrides_reply_witness :
  (contacted_model (Demo.run_gemini (Demo.online Demo.reply_as_prompted)
                      (Demo.post Demo.with_image)) = true
   /\ upstream (Demo.online Demo.reply_as_prompted)
      = UpstreamText Demo.reply_as_prompted)
  /\ field_of "processingTime"
       (Demo.run_gemini (Demo.online Demo.reply_as_prompted)
          (Demo.post Demo.with_image)) = Some (num 5001).
Proof.
  split; [split; reflexivity |].
  exact (proj1 (proj2 (proj2
    (@metadata_overrides_reply Demo.runtime
       (Demo.online Demo.reply_as_prompted) (Demo.post Demo.with_image)
       Demo.reply_as_prompted _ eq_refl eq_refl eq_refl)))).
Defined.

(** Extra X10: every answer carries the CORS headers of its function, on
    every path: preflight, rejection, success and failure alike. *)
Theorem cors_headers_on_every_answer `{rt : Runtime} (env : Env)
    (req : Request) :
  headers_of (Health.handler env req) = cors_health
  /\ headers_of (AnalyzeFoodSimple.handler env req) = cors_simple
  /\ headers_of (TestEndpoint.handler env req) = cors_simple
  /\ headers_of (AnalyzeFood.handler env req) = cors_gemini.
Proof.
  repeat split; all_paths; reflexivity.
Qed.

(** Extra X11: the health and the test endpoint answer 200 to every request,
    whatever its method and body and whether or not an API key is set, and
    write nothing to the console; to a request that is no preflight the test
    endpoint echoes the method and both report the first clock reading. *)
Theorem health_and_test_always_ok `{rt : Runtime} (env : Env) (req : Request) :
  status_of (Health.handler env req) = Some 200
  /\ status_of (TestEndpoint.handler env req) = Some 200
  /\ trace_of (Health.handler env req) = []
  /\ trace_of (TestEndpoint.handler env req) = []
  /\ (method req <> "OPTIONS" ->
      field_of "method" (TestEndpoint.handler env req)
      = Some (JStr (method req))
      /\ field_of "timestamp" (TestEndpoint.handler env req)
         = Some (JStr (toISOString (clock env 0)))
      /\ field_of "timestamp" (Health.handler env req)
         = Some (JStr (toISOString (clock env 0)))
      /\ field_of "status" (Health.handler env req) = Some (JStr "healthy")).
Proof.
  repeat split.
  1-4: all_paths; reflexivity.
  all: apply String.eqb_neq in H; unfold_more; rewrite H; reflexivity.
Qed.

Lemma health_and_test_always_ok_witness :
  method DemoMore.put_request <> "OPTIONS"
  /\ field_of "method" (DemoMore.run_test Demo.offline DemoMore.put_request)
     = Some (JStr "PUT").
Proof.
  split; [discriminate |].
  apply (@health_and_test_always_ok Demo.runtime Demo.offline
           DemoMore.put_request).
  discriminate.
Defined.

(** Extra X12: the handlers themselves never show the value of the API key.
    Two deployments whose keys are both set and not empty, whose clocks agree
    and whose calls to the model have the same outcome give the same run of
    the Gemini handler and of the health endpoint: the same answer, headers
    and console output.  What the model does with the key is outside the
    handler and enters only as the outcome of the call. *)
Theorem key_value_is_never_shown `{rt : Runtime} (env1 env2 : Env)
    (req : Request) :
  env_truthy (GEMINI_API_KEY env1) = true ->
  env_truthy (GEMINI_API_KEY env2) = true ->
  (forall n, clock env1 n = clock env2 n) ->
  upstream env1 = upstream env2 ->
  run (AnalyzeFood.handler env1 req) = run (AnalyzeFood.handler env2 req)
  /\ run (Health.handler env1 req) = run (Health.handler env2 req).
Proof.
  intros H1 H2 Hclock Hup.
  unfold_more. cbn. rewrite H1, H2, <- Hup. cbn.
  split; repeat path_step; rewrite ?Hclock; reflexivity.
Qed.

Lemma key_value_is_never_shown_witness :
  (env_truthy (GEMINI_API_KEY (Demo.online Demo.reply_as_prompted)) = true
   /\ env_truthy (GEMINI_API_KEY (DemoMore.other_key Demo.reply_as_prompted))
      = true
   /\ GEMINI_API_KEY (Demo.online Demo.reply_as_prompted)
      <> GEMINI_API_KEY (DemoMore.other_key Demo.reply_as_prompted))
  /\ run (Demo.run_gemini (Demo.online Demo.reply_as_prompted)
                          (Demo.post Demo.with_image))
     = run (Demo.run_gemini (DemoMore.other_key Demo.reply_as_prompted)
                            (Demo.post Demo.with_image)).
Proof.
  split; [repeat split; discriminate |].
  apply (@key_value_is_never_shown Demo.runtime
           (Demo.online Demo.reply_as_prompted)
           (DemoMore.other_key Demo.reply_as_prompted)
           (Demo.post Demo.with_image));
    reflexivity.
Defined.

(** Extra X13: food_name is read and never used.  Setting, changing or
    adding food_name in the body of a POST changes nothing in the run of
    either analyze handler: the same answer, the same request to the model,
    the same console output. *)
Theorem food_name_is_ignored `{rt : Runtime} (env : Env)
    (fs : list (string * json)) (name : json) :
  run (AnalyzeFood.handler env (post_object (assoc_set "food_name" name fs)))
  = run (AnalyzeFood.handler env (post_object fs))
  /\ run (AnalyzeFoodSimple.handler env
            (post_object (assoc_set "food_name" name fs)))
     = run (AnalyzeFoodSimple.handler env (post_object fs)).
Proof.
  unfold_more. cbn.
  rewrite (assoc_set_other "image" "food_name") by discriminate.
  split; reflexivity.
Qed.

(** ** Splitting and cleaning strings *)

Lemma string_app_assoc (a b c : string) :
  ((a ++ b) ++ c = a ++ (b ++ c))%string.
Proof. induction a as [| x a IH]; cbn; [reflexivity | now rewrite IH]. Qed.

Lemma no_char_app (c : ascii) (a b : string) :
  no_char c (a ++ b) = no_char c a && no_char c b.
Proof.
  induction a as [| x a IH]; cbn; [reflexivity |].
  now rewrite IH, andb_assoc.
Qed.

Lemma split_on_no_sep (sep : ascii) (a : string) :
  no_char sep a = true -> split_on sep a = [a].
Proof.
  induction a as [| x a IH]; cbn; [reflexivity |].
  intros H. apply andb_true_iff in H as [Hx Ha].
  apply negb_true_iff in Hx. rewrite Hx, (IH Ha). reflexivity.
Qed.

Lemma split_on_app (sep : ascii) (a b : string) :
  no_char sep a = true ->
  split_on sep (a ++ String sep b) = a :: split_on sep b.
Proof.
  induction a as [| x a IH]; cbn.
  - intros _. now rewrite Ascii.eqb_refl.
  - intros H. apply andb_true_iff in H as [Hx Ha].
    apply negb_true_iff in Hx. rewrite Hx, (IH Ha). reflexivity.
Qed.

Lemma data_url_prefix (subtype params payload : string) :
  String.prefix "data:image/" (data_url subtype params payload) = true.
Proof.
  unfold data_url. cbn.
  repeat match goal with
         | |- context [ascii_dec ?a ?b] => destruct (ascii_dec a b);
                                           [| congruence]
         end.
  match goal with
  | |- String.prefix EmptyString ?s = true => destruct s; reflexivity
  end.
Qed.

(** What the model receives is what [prepare_image] makes of the string. *)
Lemma sent_image_is_prepared `{rt : Runtime} (env : Env)
    (fs : list (string * json)) (s : string) :
  env_truthy (GEMINI_API_KEY env) = true ->
  assoc "image" fs = Some (JStr s) ->
  s <> "" ->
  sent_image (AnalyzeFood.handler env (post_object fs))
  = match prepared (Some (JStr s)) with
    | Normal image => Some image
    | _ => None
    end.
Proof.
  intros Hk Hi Hne. apply String.eqb_neq in Hne.
  unfold prepared. unfold_more. cbn. rewrite Hk, Hi. cbn. rewrite Hne. cbn.
  destruct (String.prefix "data:image/" s); cbn;
    repeat path_step; reflexivity.
Qed.

(** Extra X14: for a data URL [data:image/<subtype>;<params>,<payload>]
    whose subtype has no comma, semicolon or colon and whose parameters and
    payload have no comma, the image part is the payload with the MIME type
    [image/<subtype>], and that is what the Gemini handler sends to the
    model. *)
Theorem data_url_is_split `{rt : Runtime} (env : Env)
    (subtype params payload : string) (fs : list (string * json)) :
  no_char "," subtype = true ->
  no_char ";" subtype = true ->
  no_char ":" subtype = true ->
  no_char "," params = true ->
  no_char "," payload = true ->
  prepared (Some (JStr (data_url subtype params payload)))
  = Normal {| data := Some payload;
              mimeType := Some ("image/" ++ subtype) |}
  /\ (env_truthy (GEMINI_API_KEY env) = true ->
      assoc "image" fs = Some (JStr (data_url subtype params payload)) ->
      sent_image (AnalyzeFood.handler env (post_object fs))
      = Some {| data := Some payload;
                mimeType := Some ("image/" ++ subtype) |}).
Proof.
  intros Hc1 Hs Hcol Hc2 Hc3.
  assert (Hcomma : nth_error (split_on "," (data_url subtype params payload)) 1
                   = Some payload).
  { unfold data_url.
    replace ("data:image/" ++ subtype ++ ";" ++ params ++ "," ++ payload)%string
      with (("data:image/" ++ subtype ++ ";" ++ params)
            ++ String "," payload)%string
      by (rewrite !string_app_assoc; reflexivity).
    rewrite split_on_app.
    - now rewrite (split_on_no_sep "," payload Hc3).
    - rewrite !no_char_app, Hc1, Hc2. reflexivity. }
  assert (Hmime : nth_error
                    (split_on ":"
                       (hd EmptyString
                           (split_on ";" (data_url subtype params payload)))) 1
                  = Some ("image/" ++ subtype)%string).
  { unfold data_url.
    replace ("data:image/" ++ subtype ++ ";" ++ params ++ "," ++ payload)%string
      with (("data:image/" ++ subtype)
            ++ String ";" (params ++ "," ++ payload))%string
      by (rewrite !string_app_assoc; reflexivity).
    rewrite split_on_app by (rewrite no_char_app, Hs; reflexivity).
    cbn [hd].
    change ("data:image/" ++ subtype)%string
      with ("data" ++ String ":" ("image/" ++ subtype))%string.
    rewrite split_on_app by reflexivity.
    rewrite split_on_no_sep by (rewrite no_char_app, Hcol; reflexivity).
    reflexivity. }
  assert (Hprep : prepared (Some (JStr (data_url subtype params payload)))
                  = Normal {| data := Some payload;
                              mimeType := Some ("image/" ++ subtype) |}).
  { unfold prepared, run, AnalyzeFood.prepare_image.
    rewrite data_url_prefix.
    cbn [ret fst]. now rewrite Hcomma, Hmime. }
  split; [exact Hprep |].
  intros Hk Hi.
  rewrite (sent_image_is_prepared env fs _ Hk Hi) by discriminate.
  now rewrite Hprep.
Qed.

Lemma data_url_is_split_witness :
  (no_char "," "png" = true /\ no_char ";" "png" = true
   /\ no_char ":" "png" = true /\ no_char "," "base64" = true
   /\ no_char "," "iVBORw0KGgo=" = true)
  /\ prepared (Some (JStr DemoMore.png_url))
     = Normal {| data := Some "iVBORw0KGgo=";
                 mimeType := Some "image/png" |}.
Proof.
  split; [repeat split |].
  exact (proj1 (@data_url_is_split Demo.runtime Demo.offline
                  "png" "base64" "iVBORw0KGgo=" []
                  eq_refl eq_refl eq_refl eq_refl eq_refl)).
Defined.



Lemma prefix_other_head (a c : ascii) (p s : string) :
  a <> c -> String.prefix (String a p) (String c s) = false.
Proof. intros H. cbn. now destruct (ascii_dec a c). Qed.

Lemma no_char_head (c d : ascii) (s : string) :
  no_char c (String d s) = true -> c <> d /\ no_char c s = true.
Proof.
  cbn. intros H. apply andb_true_iff in H as [Hd Hs].
  apply negb_true_iff, Ascii.eqb_neq in Hd. split; [congruence | exact Hs].
Qed.

(** Removing a pattern that starts with a backtick passes over a stretch
    without backticks. *)
Lemma remove_app_no_backtick (p a b : string) :
  no_char backtick a = true ->
  remove_with_newline (String backtick p) 0 (a ++ b)
  = (a ++ remove_with_newline (String backtick p) 0 b)%string.
Proof.
  induction a as [| x a IH]; [reflexivity |].
  intros H. apply no_char_head in H as [Hx Ha].
  change ((String x a ++ b)%string) with (String x (a ++ b)).
  cbn [remove_with_newline].
  rewrite (prefix_other_head backtick x p (a ++ b) Hx).
  cbn [append]. now rewrite (IH Ha).
Qed.

Lemma remove_no_backtick (p a : string) :
  no_char backtick a = true ->
  remove_with_newline (String backtick p) 0 a = a.
Proof.
  induction a as [| x a IH]; [reflexivity |].
  intros H. apply no_char_head in H as [Hx Ha].
  cbn [remove_with_newline].
  rewrite (prefix_other_head backtick x p a Hx).
  now rewrite (IH Ha).
Qed.

Lemma remove_fence_none (a : string) :
  no_char backtick a = true -> remove_with_newline fence 0 a = a.
Proof. apply (remove_no_backtick "``"). Qed.

Lemma remove_fence_json_none (a : string) :
  no_char backtick a = true -> remove_with_newline fence_json 0 a = a.
Proof. apply (remove_no_backtick "``json"). Qed.

Lemma remove_fence_app (a b : string) :
  no_char backtick a = true ->
  remove_with_newline fence 0 (a ++ b)
  = (a ++ remove_with_newline fence 0 b)%string.
Proof. apply (remove_app_no_backtick "``"). Qed.

Lemma remove_fence_json_app (a b : string) :
  no_char backtick a = true ->
  remove_with_newline fence_json 0 (a ++ b)
  = (a ++ remove_with_newline fence_json 0 b)%string.
Proof. apply (remove_app_no_backtick "``json"). Qed.

Lemma remove_opening_fence_json (t : string) :
  remove_with_newline fence_json 0 (fence_json ++ String newline t)
  = remove_with_newline fence_json 0 t.
Proof. reflexivity. Qed.

Lemma remove_opening_fence (t : string) :
  remove_with_newline fence 0 (fence ++ String newline t)
  = remove_with_newline fence 0 t.
Proof. reflexivity. Qed.

Lemma keep_plain_fence (t : string) :
  remove_with_newline fence_json 0 (fence ++ String newline t)
  = (fence ++ String newline (remove_with_newline fence_json 0 t))%string.
Proof. reflexivity. Qed.

(** Extra X16: a reply wrapped in a Markdown fence is unwrapped.  For a
    content without backticks, the fence [```json] (or [```]), the newline
    after it and the closing fence are removed and the content is left with
    its final newline for [trim]; a text without backticks is left as it
    is. *)
Theorem fenced_reply_is_unwrapped `{rt : Runtime} (content : string) :
  no_char backtick content = true ->
  strip_fences
    (fence_json ++ String newline (content ++ String newline fence))
  = (content ++ String newline EmptyString)%string
  /\ strip_fences (fence ++ String newline (content ++ String newline fence))
     = (content ++ String newline EmptyString)%string
  /\ strip_fences content = content
  /\ clean_response
       (fence_json ++ String newline (content ++ String newline fence))
     = trim (content ++ String newline EmptyString).
Proof.
  intros H.
  assert (H1 : strip_fences
                 (fence_json
                  ++ String newline (content ++ String newline fence))
               = (content ++ String newline EmptyString)%string).
  { unfold strip_fences.
    rewrite remove_opening_fence_json, (remove_fence_json_app _ _ H).
    change (remove_with_newline fence_json 0 (String newline fence))
      with (String newline fence).
    now rewrite (remove_fence_app _ _ H). }
  split; [exact H1 |]. split; [| split].
  - unfold strip_fences.
    rewrite keep_plain_fence, (remove_fence_json_app _ _ H).
    change (remove_with_newline fence_json 0 (String newline fence))
      with (String newline fence).
    rewrite remove_opening_fence.
    now rewrite (remove_fence_app _ _ H).
  - unfold strip_fences.
    now rewrite (remove_fence_json_none _ H), (remove_fence_none _ H).
  - unfold clean_response. f_equal. exact H1.
Qed.

Lemma fenced_reply_is_unwrapped_witness :
  no_char backtick "{}" = true
  /\ strip_fences DemoMore.fenced_reply = String "{" (String "}" (String newline EmptyString)).
Proof.
  split; [reflexivity |].
  exact (proj1 (@fenced_reply_is_unwrapped Demo.runtime "{}" eq_refl)).
Defined.

Lemma prefix_same_head (a : ascii) (p s : string) :
  String.prefix (String a p) (String a s) = String.prefix p s.
Proof. cbn. destruct (ascii_dec a a); [reflexivity | congruence]. Qed.

Lemma prefix_nil (s : string) : String.prefix EmptyString s = true.
Proof. now destruct s. Qed.

Ltac head_steps :=
  repeat first
    [ rewrite prefix_same_head in *
    | rewrite prefix_nil in *
    | rewrite prefix_other_head in * by assumption
    | progress cbn [remove_with_newline] in * ].

(** A character that does not start a fence at its place does not start one
    after the removal either. *)
Lemma no_fence_at_head (c : ascii) (rest : string) :
  String.prefix fence (String c rest) = false ->
  String.prefix fence (String c (remove_with_newline fence 0 rest)) = false.
Proof.
  unfold fence. intros H.
  destruct (ascii_dec "`" c) as [<- | Hc]; [| now head_steps].
  destruct rest as [| d r2]; [reflexivity |].
  destruct (ascii_dec "`" d) as [<- | Hd]; [| now head_steps].
  destruct r2 as [| e r3]; [reflexivity |].
  destruct (ascii_dec "`" e) as [<- | He]; head_steps;
    [discriminate | reflexivity].
Qed.

Lemma no_fence_after_removal (s : string) (skip : nat) :
  occurs fence (remove_with_newline fence skip s) = false.
Proof.
  revert skip. induction s as [| c rest IH]; intros skip; [reflexivity |].
  cbn [remove_with_newline]. destruct skip as [| k]; [| apply IH].
  destruct (String.prefix fence (String c rest)) eqn:E; [apply IH |].
  cbn [occurs]. rewrite (no_fence_at_head c rest E), (IH 0%nat). reflexivity.
Qed.

(** Extra X17: whatever the model replies, no Markdown fence is left in the
    text after the two [replace] calls of line 138: the three backticks do
    not occur in it, also where removing a fence brings backticks
    together. *)
Theorem cleaning_leaves_no_fence (text : string) :
  occurs fence (strip_fences text) = false.
Proof. apply no_fence_after_removal. Qed.

(** ** Further properties of the README's rules *)

Lemma contains_incl (x : string) (xs ys : list string) :
  incl xs ys -> Readme.contains x xs = true -> Readme.contains x ys = true.
Proof. intros Hi H. apply contains_In. apply Hi. now apply contains_In. Qed.

(** Extra X18: the listed rules are monotone.  If they return for a profile
    and a food, they still return "avoid" for a profile with more
    sensitivities and a food with more categories; telling more never clears
    a verdict. *)
Theorem more_input_keeps_avoid (p q : Readme.Profile) (f g : Readme.Food) :
  more_sensitive p q ->
  more_categories f g ->
  Readme.analyze p f <> None ->
  exists r, Readme.analyze q g = Some (r, "avoid").
Proof.
  intros (Hg & Hs & Hsens) (Hc & Hcats) H.
  assert (Hany : exists r, In r Readme.example_rules
                           /\ Readme.condition p f r = true).
  { rewrite analyze_first_match in H.
    destruct (find (Readme.condition p f) Readme.example_rules) as [r |] eqn:E;
      [| now elim H].
    exists r. now apply find_some in E. }
  destruct Hany as (r & _ & Hr).
  assert (Hq : Readme.condition q g r = true).
  { destruct r; cbn in *; rewrite ?Hg, ?Hs, ?Hc; trivial;
      apply andb_true_iff in Hr as [H1 H2]; apply andb_true_iff; split;
      trivial; eauto using contains_incl. }
  rewrite analyze_first_match.
  destruct (find (Readme.condition q g) Readme.example_rules) as [r' |] eqn:E.
  - now exists r'.
  - assert (Hin : In r Readme.example_rules) by (destruct r; cbn; auto).
    pose proof (find_none _ _ E r Hin) as Hfalse. congruence.
Qed.

Lemma more_input_keeps_avoid_witness :
  (more_sensitive DemoMore.low_spice DemoMore.low_spice_ibs
   /\ more_categories DemoMore.spicy_only DemoMore.spicy_fried
   /\ Readme.analyze DemoMore.low_spice DemoMore.spicy_only <> None)
  /\ exists r,
       Readme.analyze DemoMore.low_spice_ibs DemoMore.spicy_fried
       = Some (r, "avoid").
Proof.
  assert (H1 : more_sensitive DemoMore.low_spice DemoMore.low_spice_ibs).
  { repeat split. intros x []. }
  assert (H2 : more_categories DemoMore.spicy_only DemoMore.spicy_fried).
  { repeat split. intros x [<- | []]. cbn. auto. }
  assert (H3 : Readme.analyze DemoMore.low_spice DemoMore.spicy_only <> None)
    by discriminate.
  split; [split; [exact H1 | split; [exact H2 | exact H3]] |].
  exact (more_input_keeps_avoid _ _ _ _ H1 H2 H3).
Defined.

(** Extra X19: the profiles that the listed rules never flag are exactly
    those whose gut type is not high_inflammation, that have no lactose
    sensitivity and whose spice tolerance is not 1; the other sensitivities
    (ibs, acidity) have no rule and change nothing. *)
Theorem unflagged_profiles (p : Readme.Profile) :
  (forall f, Readme.analyze p f = None)
  <-> Readme.gut_type p <> "high_inflammation"
      /\ ~ In "lactose" (Readme.sensitivities p)
      /\ Readme.spice_tolerance p <> 1.
Proof.
  split.
  - intros H.
    specialize (H {| Readme.food_category := "fried";
                     Readme.food_categories := ["dairy"; "spicy"] |}).
    unfold Readme.analyze in H. cbn in H.
    destruct (String.eqb (Readme.gut_type p) "high_inflammation") eqn:Eg;
      cbn in H; [discriminate |].
    destruct (Readme.contains "lactose" (Readme.sensitivities p)) eqn:El;
      cbn in H; [discriminate |].
    destruct (Readme.spice_tolerance p =? 1) eqn:Es; cbn in H;
      [discriminate |].
    split; [now apply String.eqb_neq |]. split.
    + intros Hin. apply contains_In in Hin. congruence.
    + now apply Z.eqb_neq.
  - intros (Hg & Hl & Hs) f.
    apply String.eqb_neq in Hg. apply Z.eqb_neq in Hs.
    assert (El : Readme.contains "lactose" (Readme.sensitivities p) = false).
    { destruct (Readme.contains "lactose" (Readme.sensitivities p)) eqn:E;
        trivial. now apply contains_In in E. }
    unfold Readme.analyze. now rewrite Hg, El, Hs.
Qed.

Lemma unflagged_profiles_witness :
  Readme.analyze DemoMore.balanced_profile Demo.fried_dairy = None.
Proof.
  apply (proj2 (unflagged_profiles DemoMore.balanced_profile)).
  split; [discriminate |]. split; [| discriminate].
  cbn. intros [H | [H | []]]; discriminate.
Defined.

(** Extra X20: the health endpoint tells the truth about the analyze
    handler.  For one deployment, health reports gemini as "configured"
    exactly when a POST to the Gemini handler gets past the API key guard,
    that is, is not answered with the 500 "Configuration error" reply. *)
Theorem health_agrees_with_guard `{rt : Runtime} (env : Env)
    (probe req : Request) :
  method probe <> "OPTIONS" ->
  method req = "POST" ->
  field_of "gemini" (Health.handler env probe) = Some (JStr "configured")
  <-> response_of (AnalyzeFood.handler env req)
      <> Some {| status := 500;
                 payload := Some (JObj [
                   ("error", JStr "Configuration error");
                   ("message", JStr "API key not configured")]) |}.
Proof.
  intros Hp Hm. rewrite (health_body env probe Hp).
  destruct (env_truthy (GEMINI_API_KEY env)) eqn:Ek.
  - split; [intros _ | reflexivity].
    unfold_more. rewrite Hm, Ek. cbn.
    repeat path_step; discriminate.
  - destruct (handler_post_no_key env req Hm Ek) as [Hr _].
    rewrite Hr.
    split; [discriminate | intros H; now elim H].
Qed.

Lemma health_agrees_with_guard_witness :
  (method Demo.get_request <> "OPTIONS"
   /\ method (Demo.post Demo.name_only) = "POST")
  /\ response_of
       (Demo.run_gemini (Demo.online "") (Demo.post Demo.name_only))
     <> Some {| status := 500;
                payload := Some (JObj [
                  ("error", JStr "Configuration error");
                  ("message", JStr "API key not configured")]) |}.
Proof.
  split; [split; [discriminate | reflexivity] |].
  apply (proj1 (@health_agrees_with_guard Demo.runtime (Demo.online "")
                  Demo.get_request (Demo.post Demo.name_only)
                  ltac:(discriminate) eq_refl)).
  reflexivity.
Defined.
